(** * Guest routes of the Roommates backend: a shallow embedding

    The development follows [src/app/models.py] (the [Guest] model and its
    [to_dict]) and [src/app/routes/guests.py] (the five request handlers).
    Python values are modelled as the code has them: the JSON request body
    is a dictionary from keys to scalar values, the [Guest] table is the
    list of its rows, the ORM session is threaded through the handlers as
    explicit state, and an uncaught Python exception is a result of its own. *)

From Stdlib Require Import ZArith Lia Ascii String List Bool.
From stdpp Require Import gmap strings list.

Local Open Scope string_scope.
Local Open Scope Z_scope.

(** ** Scalar JSON values and Python exceptions *)

(** The values a field of the request body (and of a serialised guest)
    holds: [None]/null, an integer or a string. *)
Inductive json : Type :=
  | JNull
  | JInt (z : Z)
  | JStr (s : string).

#[global] Instance json_eq_dec : EqDecision json.
Proof. solve_decision. Defined.

(** The exceptions the handlers can let escape, and werkzeug's
    [abort(code)]. *)
Inductive exn : Type :=
  | KeyError (key : string)
  | TypeError
  | ValueError
  | AttributeError
  | IntegrityError
  | HTTPException (code : Z).

Inductive result (A : Type) : Type :=
  | Return (a : A)
  | Raise (e : exn).
Arguments Return {A} a.
Arguments Raise {A} e.

Definition rbind {A B} (r : result A) (k : A -> result B) : result B :=
  match r with
  | Return a => k a
  | Raise e => Raise e
  end.

Fixpoint rmap {A B} (f : A -> result B) (l : list A) : result (list B) :=
  match l with
  | [] => Return []
  | a :: l' => rbind (f a) (fun b => rbind (rmap f l') (fun bs => Return (b :: bs)))
  end.

Definition of_option {A} (e : exn) (o : option A) : result A :=
  match o with
  | Some a => Return a
  | None => Raise e
  end.

(** ** Decimal digits *)

Definition digit_of_ascii (c : ascii) : option Z :=
  let n := Z.of_nat (nat_of_ascii c) in
  if (48 <=? n) && (n <=? 57) then Some (n - 48) else None.

Definition ascii_of_digit (d : Z) : ascii :=
  ascii_of_nat (Z.to_nat (48 + d)).

Definition two_digits (a b : ascii) : option Z :=
  match digit_of_ascii a, digit_of_ascii b with
  | Some x, Some y => Some (10 * x + y)
  | _, _ => None
  end.

(** [%02d] and [%04d] *)
Definition pad2 (n : Z) : string :=
  String (ascii_of_digit (n / 10 mod 10))
    (String (ascii_of_digit (n mod 10)) EmptyString).

Definition pad4 (n : Z) : string :=
  String (ascii_of_digit (n / 1000 mod 10))
    (String (ascii_of_digit (n / 100 mod 10)) (pad2 n)).

(** ** [datetime.date] *)

Record date : Type := mk_date { year : Z; month : Z; day : Z }.

#[global] Instance date_eq_dec : EqDecision date.
Proof. solve_decision. Defined.

Definition is_leap (y : Z) : bool :=
  (y mod 4 =? 0) && (negb (y mod 100 =? 0) || (y mod 400 =? 0)).

Definition days_in_month (y m : Z) : Z :=
  if m =? 2 then (if is_leap y then 29 else 28)
  else if (m =? 4) || (m =? 6) || (m =? 9) || (m =? 11) then 30
  else 31.

Definition valid_date (d : date) : bool :=
  (1 <=? year d) && (year d <=? 9999) &&
  (1 <=? month d) && (month d <=? 12) &&
  (1 <=? day d) && (day d <=? days_in_month (year d) (month d)).

(** The number of days before January 1st of year [y], and before the
    first day of month [m] of year [y]; [toordinal] is the proleptic
    Gregorian ordinal, with 0001-01-01 as day 1. *)
Definition days_before_year (y : Z) : Z :=
  let p := y - 1 in p * 365 + p / 4 - p / 100 + p / 400.

Definition days_before_month (y m : Z) : Z :=
  let cum := nth (Z.to_nat m)
                 [0; 0; 31; 59; 90; 120; 151; 181; 212; 243; 273; 304; 334] 0 in
  cum + (if (2 <? m) && is_leap y then 1 else 0).

Definition toordinal (d : date) : Z :=
  days_before_year (year d) + days_before_month (year d) (month d) + day d.

(** The calendar day after [d]. *)
Definition next_day (d : date) : date :=
  if day d <? days_in_month (year d) (month d)
  then mk_date (year d) (month d) (day d + 1)
  else if month d <? 12
  then mk_date (year d) (month d + 1) 1
  else mk_date (year d + 1) 1 1.

(** Comparison of dates, as Python and SQL order them. *)
Definition date_le (a b : date) : bool :=
  (year a <? year b) ||
  ((year a =? year b) &&
   ((month a <? month b) || ((month a =? month b) && (day a <=? day b)))).

Fixpoint split_on (sep : ascii) (s : string) : list string :=
  match s with
  | EmptyString => [EmptyString]
  | String c s' =>
      if Ascii.eqb c sep then EmptyString :: split_on sep s'
      else match split_on sep s' with
           | [] => [String c EmptyString]
           | w :: ws => String c w :: ws
           end
  end.

(** [%Y] is exactly four digits. *)
Definition parse_year (s : string) : option Z :=
  match s with
  | String a (String b (String c (String d EmptyString))) =>
      match two_digits a b, two_digits c d with
      | Some hi, Some lo => Some (100 * hi + lo)
      | _, _ => None
      end
  | _ => None
  end.

(** [%m] is [1[0-2]|0[1-9]|[1-9]]. *)
Definition parse_month (s : string) : option Z :=
  match s with
  | String a EmptyString =>
      match digit_of_ascii a with
      | Some x => if 1 <=? x then Some x else None
      | None => None
      end
  | String a (String b EmptyString) =>
      match two_digits a b with
      | Some m => if (1 <=? m) && (m <=? 12) then Some m else None
      | None => None
      end
  | _ => None
  end.

(** [%d] is [3[01]|[12]\d|0[1-9]|[1-9]| [1-9]]. *)
Definition parse_day (s : string) : option Z :=
  match s with
  | String a EmptyString =>
      match digit_of_ascii a with
      | Some x => if 1 <=? x then Some x else None
      | None => None
      end
  | String a (String b EmptyString) =>
      if Ascii.eqb a " "%char
      then match digit_of_ascii b with
           | Some x => if 1 <=? x then Some x else None
           | None => None
           end
      else match two_digits a b with
           | Some d => if (1 <=? d) && (d <=? 31) then Some d else None
           | None => None
           end
  | _ => None
  end.

(** [datetime.strptime(s, '%Y-%m-%d').date()]: [ValueError] when the
    string does not match the format or names no calendar day. The digits
    are the ASCII digits: on a text of ASCII characters (see [is_ascii])
    this is Python's function; the other decimal digits of Unicode, which
    Python's [\d] also takes, are outside the model. *)
Definition strptime_date (s : string) : result date :=
  match split_on "-"%char s with
  | [ys; ms; ds] =>
      match parse_year ys, parse_month ms, parse_day ds with
      | Some y, Some m, Some d =>
          let dt := mk_date y m d in
          if valid_date dt then Return dt else Raise ValueError
      | _, _, _ => Raise ValueError
      end
  | _ => Raise ValueError
  end.

(** [d.strftime('%Y-%m-%d')], the year written with four digits: this is
    Python's output for the years 1000 to 9999 (below 1000 the width of
    [%Y] is the C library's). *)
Definition strftime_date (d : date) : string :=
  pad4 (year d) ++ "-" ++ pad2 (month d) ++ "-" ++ pad2 (day d).

(** ** [datetime.time] *)

(** A time of day to the whole second, without offset: what
    [strftime('%H:%M:%S')] shows of a [datetime.time]. *)
Record time : Type := mk_time { hour : Z; minute : Z; second : Z }.

#[global] Instance time_eq_dec : EqDecision time.
Proof. solve_decision. Defined.

Definition valid_time (t : time) : bool :=
  (0 <=? hour t) && (hour t <? 24) &&
  (0 <=? minute t) && (minute t <? 60) &&
  (0 <=? second t) && (second t <? 60).

Definition make_time (h m s : Z) : result time :=
  let t := mk_time h m s in
  if valid_time t then Return t else Raise ValueError.

(** [time.fromisoformat(s)] on the extended forms [HH], [HH:MM] and
    [HH:MM:SS]. The other forms Python reads (a fraction of a second, a UTC
    offset, the basic forms without colons, a leading [T]) are outside the
    model, which answers them with [ValueError]; a statement about the text
    of a time is made on [is_hhmmss] texts, where the model is Python's
    function. *)
Definition time_fromisoformat (s : string) : result time :=
  match s with
  | String a (String b rest) =>
      match two_digits a b with
      | None => Raise ValueError
      | Some h =>
          match rest with
          | EmptyString => make_time h 0 0
          | String sep1 (String c (String d rest')) =>
              if negb (Ascii.eqb sep1 ":"%char) then Raise ValueError else
              match two_digits c d with
              | None => Raise ValueError
              | Some m =>
                  match rest' with
                  | EmptyString => make_time h m 0
                  | String sep2 (String e (String f EmptyString)) =>
                      if negb (Ascii.eqb sep2 ":"%char) then Raise ValueError else
                      match two_digits e f with
                      | None => Raise ValueError
                      | Some sec => make_time h m sec
                      end
                  | _ => Raise ValueError
                  end
              end
          | _ => Raise ValueError
          end
      end
  | _ => Raise ValueError
  end.

(** [t.strftime('%H:%M:%S')] *)
Definition strftime_time (t : time) : string :=
  pad2 (hour t) ++ ":" ++ pad2 (minute t) ++ ":" ++ pad2 (second t).

(** The string has the shape [HH:MM:SS]: eight characters, digits around
    two colons. *)
Definition is_hhmmss (s : string) : bool :=
  match s with
  | String a (String b (String c1 (String c (String d
      (String c2 (String e (String f EmptyString))))))) =>
      Ascii.eqb c1 ":"%char && Ascii.eqb c2 ":"%char &&
      bool_decide (is_Some (two_digits a b)) &&
      bool_decide (is_Some (two_digits c d)) &&
      bool_decide (is_Some (two_digits e f))
  | _ => false
  end.

Definition seconds_of_time (t : time) : Z :=
  hour t * 3600 + minute t * 60 + second t.

Definition time_of_seconds (n : Z) : time :=
  mk_time (n / 3600) (n mod 3600 / 60) (n mod 60).

(** Seconds since the start of day 0 of the proleptic calendar. *)
Definition instant (d : date) (t : time) : Z :=
  toordinal d * 86400 + seconds_of_time t.

(** ** The [Guest] model *)

(** A [Guest] object. [id] is [None] until the row is flushed;
    [stay_time] is [None] until something assigns it (the constructor call
    of [create_guest] does not pass it). [guest_type_id], [inviter_id] and
    [comment] hold the value of the request body as the handler assigned
    it: the coercion of the column type on the way to the database is not
    modelled, so that a statement about a stored [inviter_id] is made for
    integer values. *)
Record Guest : Type := mk_Guest {
  id : option Z;
  guest_type_id : json;
  inviter_id : json;
  coming_date : date;
  coming_time : time;
  stay_time : option time;
  comment : json;
  (* Modelled from the spec: the derived exit instant, which the spec says
     the record additionally stores; [src/app/models.py] declares no
     column for it. *)
  exit_date : option date;
  exit_time : option time
}.

#[global] Instance Guest_eq_dec : EqDecision Guest.
Proof. solve_decision. Defined.

(** [Guest(guest_type_id=.., inviter_id=.., coming_date=.., coming_time=..,
    comment=..)] *)
Definition Guest_init (gt inv : json) (cd : date) (ct : time) (cm : json) : Guest :=
  mk_Guest None gt inv cd ct None cm None None.

Definition set_id (v : option Z) (g : Guest) : Guest :=
  mk_Guest v (guest_type_id g) (inviter_id g) (coming_date g) (coming_time g)
           (stay_time g) (comment g) (exit_date g) (exit_time g).
Definition set_guest_type_id (v : json) (g : Guest) : Guest :=
  mk_Guest (id g) v (inviter_id g) (coming_date g) (coming_time g)
           (stay_time g) (comment g) (exit_date g) (exit_time g).
Definition set_inviter_id (v : json) (g : Guest) : Guest :=
  mk_Guest (id g) (guest_type_id g) v (coming_date g) (coming_time g)
           (stay_time g) (comment g) (exit_date g) (exit_time g).
Definition set_coming_date (v : date) (g : Guest) : Guest :=
  mk_Guest (id g) (guest_type_id g) (inviter_id g) v (coming_time g)
           (stay_time g) (comment g) (exit_date g) (exit_time g).
Definition set_coming_time (v : time) (g : Guest) : Guest :=
  mk_Guest (id g) (guest_type_id g) (inviter_id g) (coming_date g) v
           (stay_time g) (comment g) (exit_date g) (exit_time g).
Definition set_comment (v : json) (g : Guest) : Guest :=
  mk_Guest (id g) (guest_type_id g) (inviter_id g) (coming_date g) (coming_time g)
           (stay_time g) v (exit_date g) (exit_time g).

(** Modelled from the spec: [Guest.set_exit_time], which [create_guest] and
    [update_guest] call and [src/app/models.py] does not define. The spec:
    the exit instant is the arrival instant plus the [stay_time] duration,
    split back into an exit date and an exit time of day, the overflow past
    24:00:00 going into the next calendar date; and the guest's [stay_time]
    is the duration that was given. *)
Definition set_exit_time (cd : date) (ct st : time) (self : Guest) : Guest :=
  let total := seconds_of_time ct + seconds_of_time st in
  mk_Guest (id self) (guest_type_id self) (inviter_id self)
           (coming_date self) (coming_time self)
           (Some st) (comment self)
           (Some (Nat.iter (Z.to_nat (total / 86400)) next_day cd))
           (Some (time_of_seconds (total mod 86400))).

(** [Guest.to_dict]; [None.strftime] is an [AttributeError]. *)
Definition to_dict (self : Guest) : result (gmap string json) :=
  match stay_time self with
  | None => Raise AttributeError
  | Some st =>
      Return (<["id" := match id self with Some k => JInt k | None => JNull end]>
             (<["guest_type_id" := guest_type_id self]>
             (<["inviter_id" := inviter_id self]>
             (<["coming_date" := JStr (strftime_date (coming_date self))]>
             (<["coming_time" := JStr (strftime_time (coming_time self))]>
             (<["stay_time" := JStr (strftime_time st)]>
             (<["comment" := comment self]> ∅)))))))
  end.

(** ** The database session *)

(** [table] holds the committed rows of the guest table, in storage order;
    [pending] is the table as the open transaction of the request sees it,
    with the changes that are not committed yet. *)
Record session : Type := mk_session {
  table : list Guest;
  pending : list Guest
}.

Definition M (A : Type) : Type := session -> result A * session.

Definition ret {A} (a : A) : M A := fun s => (Return a, s).
Definition raise {A} (e : exn) : M A := fun s => (Raise e, s).
Definition lift {A} (r : result A) : M A := fun s => (r, s).
Definition bind {A B} (m : M A) (k : A -> M B) : M B :=
  fun s => match m s with
           | (Return a, s') => k a s'
           | (Raise e, s') => (Raise e, s')
           end.

Declare Scope py_scope.
Delimit Scope py_scope with py.
Notation "x <- c ;; k" := (bind c (fun x => k))
  (at level 100, c at next level, right associativity) : py_scope.
Notation "c ;;; k" := (bind c (fun _ => k))
  (at level 100, right associativity) : py_scope.
Local Open Scope py_scope.

Definition has_id (k : Z) (g : Guest) : bool := bool_decide (id g = Some k).

(** [db.session.get(Guest, {'id': k})] *)
Definition session_get (k : Z) : M (option Guest) :=
  fun s => (Return (find (has_id k) (pending s)), s).

(** The primary key the table hands out next. *)
Definition next_id (rows : list Guest) : Z :=
  1 + fold_right (fun g acc => Z.max (default 0 (id g)) acc) 0 rows.

(** [db.session.add(g)]: the object joins the session; its key is the one
    the flush gives it. *)
Definition session_add (g : Guest) : M Guest :=
  fun s => let g' := set_id (Some (next_id (pending s))) g in
           (Return g', mk_session (table s) (pending s ++ [g'])%list).

Fixpoint update_row (k : Z) (f : Guest -> Guest) (rows : list Guest) : list Guest :=
  match rows with
  | [] => []
  | g :: rows' => if has_id k g then f g :: rows' else g :: update_row k f rows'
  end.

Fixpoint delete_row (k : Z) (rows : list Guest) : list Guest :=
  match rows with
  | [] => []
  | g :: rows' => if has_id k g then rows' else g :: delete_row k rows'
  end.

(** An attribute assignment on the persistent object [obj] with key [k]:
    the object the handler holds and the row of the session are one and the
    same, so both change. *)
Definition setattr (k : Z) (f : Guest -> Guest) (obj : Guest) : M Guest :=
  fun s => (Return (f obj), mk_session (table s) (update_row k f (pending s))).

(** [db.session.delete(guest)] *)
Definition session_delete (k : Z) : M unit :=
  fun s => (Return tt, mk_session (table s) (delete_row k (pending s))).

(** The columns declared [nullable=False]. *)
Definition not_null (g : Guest) : bool :=
  negb (bool_decide (guest_type_id g = JNull)) &&
  negb (bool_decide (inviter_id g = JNull)) &&
  bool_decide (is_Some (stay_time g)).

(** [db.session.commit()]: the new and changed rows are flushed, and the
    transaction fails as a whole when one of them breaks a constraint. *)
Definition session_commit : M unit :=
  fun s =>
    if forallb (fun g => not_null g || bool_decide (g ∈ table s)) (pending s)
    then (Return tt, mk_session (pending s) (pending s))
    else (Raise IntegrityError, s).

(** A request runs against the committed table; when it is over the session
    is removed, and what was not committed is gone. *)
Definition run {A} (h : M A) (db : list Guest) : result A * list Guest :=
  let '(r, s) := h (mk_session db db) in (r, table s).

(** ** Responses *)

Inductive body : Type :=
  | GuestBody (d : gmap string json)
  | ErrorBody (error : string)
  | ErrorsBody (errors : gmap string (list string))
  | PageBody (guests : list (gmap string json)) (total_guests : Z)
             (prev_page next_page : option Z)
  | EmptyBody.

Record response : Type := mk_response { status : Z; content : body }.

(** The status code the client sees: Flask turns an [HTTPException] into a
    response with its code and anything else uncaught into a 500. *)
Definition http_status (r : result response) : Z :=
  match r with
  | Return resp => status resp
  | Raise (HTTPException code) => code
  | Raise _ => 500
  end.

(** The handler returned, with a 2xx status. *)
Definition succeeded (r : result response) : bool :=
  match r with
  | Return resp => (200 <=? status resp) && (status resp <? 300)
  | Raise _ => false
  end.

(** ** Queries and pagination *)

(** The [where] clauses [get_guests] adds to [db.select(Guest)]. *)
Inductive clause : Type :=
  | InviterIs (v : Z)
  | GuestTypeIs (v : Z)
  | StartDateGe (d : date)
  | StartDateLe (d : date).

(** Modelled from the spec: the column [Guest.start_date] that [get_guests]
    compares with the date filters is not declared in [src/app/models.py];
    the spec says the date filters apply to the guest's arrival date. *)
Definition Guest_start_date (g : Guest) : date := coming_date g.

Definition holds (c : clause) (g : Guest) : bool :=
  match c with
  | InviterIs v => bool_decide (inviter_id g = JInt v)
  | GuestTypeIs v => bool_decide (guest_type_id g = JInt v)
  | StartDateGe d => date_le d (Guest_start_date g)
  | StartDateLe d => date_le (Guest_start_date g) d
  end.

(** [select.where(c)] *)
Definition where_ (select : list clause) (c : clause) : list clause :=
  (select ++ [c])%list.

Definition matches (select : list clause) (g : Guest) : bool :=
  forallb (fun c => holds c g) select.

Definition execute (select : list clause) (rows : list Guest) : list Guest :=
  List.filter (matches select) rows.

(** Flask-SQLAlchemy's [Pagination] object, as [db.paginate] builds it with
    its defaults ([error_out=True], no [max_per_page]). *)
Record Pagination : Type := mk_Pagination {
  pg_page : Z;
  pg_per_page : Z;
  items : list Guest;
  total : Z
}.

Definition pages (p : Pagination) : Z :=
  if total p =? 0 then 0
  else (total p + pg_per_page p - 1) / pg_per_page p.

Definition has_prev (p : Pagination) : bool := 1 <? pg_page p.
Definition prev_num (p : Pagination) : option Z :=
  if has_prev p then Some (pg_page p - 1) else None.
Definition has_next (p : Pagination) : bool := pg_page p <? pages p.
Definition next_num (p : Pagination) : option Z :=
  if has_next p then Some (pg_page p + 1) else None.

Definition page_items (rows : list Guest) (page per_page : Z) : list Guest :=
  take (Z.to_nat per_page) (drop (Z.to_nat ((page - 1) * per_page)) rows).

(** [db.paginate(select, page=page, per_page=per_page)]: [abort(404)] when
    [page] or [per_page] is below 1, or when the page is empty and is not
    the first one. The limit and the offset of the query are
    mathematical integers here; the database takes them as 64-bit
    integers, so the model is the library for [page * per_page < 2^63]. *)
Definition paginate (select : list clause) (page per_page : Z) : M Pagination :=
  fun s =>
    if page <? 1 then (Raise (HTTPException 404), s)
    else if per_page <? 1 then (Raise (HTTPException 404), s)
    else
      let rows := execute select (pending s) in
      let its := page_items rows page per_page in
      if bool_decide (its = []) && negb (page =? 1)
      then (Raise (HTTPException 404), s)
      else (Return (mk_Pagination page per_page its (Z.of_nat (length rows))), s).

(** ** The request *)

(** The query string after [request.args.get(name, default, type=..)] has
    converted it: a field is [None] when the parameter is missing or, for
    the integers, when it does not convert. *)
Record query_args : Type := mk_query_args {
  arg_page : option Z;
  arg_per_page : option Z;
  arg_inviter_id : option Z;
  arg_guest_type_id : option Z;
  arg_start_date : option string;
  arg_end_date : option string
}.

(** Python truthiness of an optional integer and of an optional string. *)
Definition truthy_int (o : option Z) : bool :=
  match o with Some z => negb (z =? 0) | None => false end.
Definition truthy_str (o : option string) : bool :=
  match o with Some s => negb (bool_decide (s = EmptyString)) | None => false end.

(** [data[key]] *)
Definition getitem (data : gmap string json) (key : string) : result json :=
  of_option (KeyError key) (data !! key).

(** [datetime.strptime(v, '%Y-%m-%d').date()] and [time.fromisoformat(v)] on
    a value of the body: a [TypeError] when it is not a string. *)
Definition strptime_json (v : json) : result date :=
  match v with JStr s => strptime_date s | _ => Raise TypeError end.
Definition fromisoformat_json (v : json) : result time :=
  match v with JStr s => time_fromisoformat s | _ => Raise TypeError end.
Definition strptime_opt (o : option string) : result date :=
  match o with Some s => strptime_date s | None => Raise TypeError end.

(** ** The handlers of [src/app/routes/guests.py] *)

Section Handlers.

(** [guest_schema.validate(data, existing_guest_id=..)]: the schema of
    [schemas/guest_schema.py] is a parameter of the handlers. It returns the
    map from field names to error messages, empty when the body is
    accepted. *)
Variable validate : gmap string json -> option Z -> gmap string (list string).

(** GET /guests: the filters of the query string, added to the query one
    after the other (the block of [get_guests] under the comment on the
    filter parameters). *)
Definition select_guests (args : query_args) : result (list clause) :=
  let select_result : list clause := [] in
  let select_result :=
    if truthy_int (arg_inviter_id args)
    then where_ select_result (InviterIs (default 0 (arg_inviter_id args)))
    else select_result in
  let select_result :=
    if truthy_int (arg_guest_type_id args)
    then where_ select_result (GuestTypeIs (default 0 (arg_guest_type_id args)))
    else select_result in
  let start_date_str := arg_start_date args in
  rbind
    (if truthy_str start_date_str
     then rbind (strptime_opt start_date_str) (fun start_date =>
          Return (where_ select_result (StartDateGe start_date)))
     else Return select_result)
    (fun select_result =>
  let end_date_str := arg_end_date args in
  if truthy_str start_date_str
  then rbind (strptime_opt end_date_str) (fun end_date =>
       Return (where_ select_result (StartDateLe end_date)))
  else Return select_result).

(** GET /guests *)
Definition get_guests (args : query_args) : M response :=
  let page_number := default 1 (arg_page args) in
  let per_page := default 10 (arg_per_page args) in
  select_result <- lift (select_guests args) ;;
  resulting_page <- paginate select_result page_number per_page ;;
  let guests := items resulting_page in
  let total_guests := total resulting_page in
  let prev_page := if has_prev resulting_page then prev_num resulting_page else None in
  let next_page := if has_next resulting_page then next_num resulting_page else None in
  output <- lift (rmap to_dict guests) ;;
  ret (mk_response 200 (PageBody output total_guests prev_page next_page)).

(** POST /guests, for the caller [identity] of the token. *)
Definition create_guest (identity : Z) (data : gmap string json) : M response :=
  let data := <["inviter_id" := JInt identity]> data in
  let errors := validate data None in
  if negb (bool_decide (errors = ∅)) then ret (mk_response 400 (ErrorsBody errors))
  else
    cd <- lift (rbind (getitem data "coming_date") strptime_json) ;;
    ct <- lift (rbind (getitem data "coming_time") fromisoformat_json) ;;
    st <- lift (rbind (getitem data "stay_time") fromisoformat_json) ;;
    gt <- lift (getitem data "guest_type_id") ;;
    inv <- lift (getitem data "inviter_id") ;;
    cm <- lift (getitem data "comment") ;;
    let new_guest := Guest_init gt inv cd ct cm in
    let new_guest := set_exit_time cd ct st new_guest in
    new_guest <- session_add new_guest ;;
    session_commit ;;;
    d <- lift (to_dict new_guest) ;;
    ret (mk_response 201 (GuestBody d)).

(** GET /guests/<guest_id> *)
Definition get_guest (guest_id : Z) : M response :=
  guest <- session_get guest_id ;;
  match guest with
  | None => ret (mk_response 404 (ErrorBody "Guest not found"))
  | Some guest =>
      d <- lift (to_dict guest) ;;
      ret (mk_response 200 (GuestBody d))
  end.

(** PUT /guests/<guest_id> *)
Definition update_guest (identity : Z) (guest_id : Z) (data : gmap string json)
  : M response :=
  guest <- session_get guest_id ;;
  match guest with
  | None => ret (mk_response 404 (ErrorBody "Guest not found"))
  | Some guest =>
      if negb (bool_decide (JInt identity = inviter_id guest))
      then ret (mk_response 403 (ErrorBody "Access denied"))
      else
        let errors := validate data (Some guest_id) in
        if negb (bool_decide (errors = ∅))
        then ret (mk_response 400 (ErrorsBody errors))
        else
          cd <- lift (rbind (getitem data "coming_date") strptime_json) ;;
          ct <- lift (rbind (getitem data "coming_time") fromisoformat_json) ;;
          st <- lift (rbind (getitem data "stay_time") fromisoformat_json) ;;
          v <- lift (getitem data "guest_type_id") ;;
          guest <- setattr guest_id (set_guest_type_id v) guest ;;
          v <- lift (getitem data "inviter_id") ;;
          guest <- setattr guest_id (set_inviter_id v) guest ;;
          v <- lift (rbind (getitem data "coming_date") strptime_json) ;;
          guest <- setattr guest_id (set_coming_date v) guest ;;
          v <- lift (rbind (getitem data "coming_time") fromisoformat_json) ;;
          guest <- setattr guest_id (set_coming_time v) guest ;;
          guest <- setattr guest_id (set_exit_time cd ct st) guest ;;
          v <- lift (getitem data "comment") ;;
          guest <- setattr guest_id (set_comment v) guest ;;
          session_commit ;;;
          d <- lift (to_dict guest) ;;
          ret (mk_response 200 (GuestBody d))
  end.

(** DELETE /guests/<guest_id> *)
Definition delete_guest (identity : Z) (guest_id : Z) : M response :=
  guest <- session_get guest_id ;;
  match guest with
  | None => ret (mk_response 404 (ErrorBody "Guest not found"))
  | Some guest =>
      if negb (bool_decide (JInt identity = inviter_id guest))
      then ret (mk_response 403 (ErrorBody "Access denied"))
      else
        session_delete guest_id ;;;
        session_commit ;;;
        ret (mk_response 204 EmptyBody)
  end.

(** The three commands of the API, and the route that serves each. *)
Inductive command : Type :=
  | Create (data : gmap string json)
  | Update (guest_id : Z) (data : gmap string json)
  | Delete (guest_id : Z).

Definition handle (identity : Z) (c : command) : M response :=
  match c with
  | Create data => create_guest identity data
  | Update guest_id data => update_guest identity guest_id data
  | Delete guest_id => delete_guest identity guest_id
  end.

End Handlers.

(** The body a command carries, the guest it is aimed at, and the guest it
    has stored once it is through: the new row of a create, the row with
    the key of an update. *)
Definition payload (c : command) : option (gmap string json) :=
  match c with
  | Create data | Update _ data => Some data
  | Delete _ => None
  end.

Definition target (c : command) : option Z :=
  match c with
  | Create _ => None
  | Update guest_id _ | Delete guest_id => Some guest_id
  end.

Definition stored_guest (c : command) (db' : list Guest) : option Guest :=
  match c with
  | Create _ => last db'
  | Update guest_id _ => find (has_id guest_id) db'
  | Delete _ => None
  end.

(** A schema that accepts every body, and sample data. *)
Definition accept_all : gmap string json -> option Z -> gmap string (list string) :=
  fun _ _ => ∅.

Definition sample_data : gmap string json :=
  <["guest_type_id" := JInt 1]>
  (<["coming_date" := JStr "2024-03-10"]>
  (<["coming_time" := JStr "23:00:00"]>
  (<["stay_time" := JStr "02:30:00"]>
  (<["comment" := JStr "friend"]> ∅)))).

Definition sample_guest : Guest :=
  mk_Guest (Some 1) (JInt 1) (JInt 7) (mk_date 2024 2 15) (mk_time 10 0 0)
           (Some (mk_time 1 30 0)) JNull
           (Some (mk_date 2024 2 15)) (Some (mk_time 11 30 0)).

Definition sample_guest_dict : gmap string json :=
  <["id" := JInt 1]>
  (<["guest_type_id" := JInt 1]>
  (<["inviter_id" := JInt 7]>
  (<["coming_date" := JStr "2024-02-15"]>
  (<["coming_time" := JStr "10:00:00"]>
  (<["stay_time" := JStr "01:30:00"]>
  (<["comment" := JNull]> ∅)))))).

(** ** The vocabulary of the statements, and sample requests *)

(** A computation that leaves the committed table alone. *)
Definition no_write {A} (m : M A) : Prop :=
  forall s r s', m s = (r, s') -> table s' = table s.

(** A handler that changes the committed table only when it answers with
    a success. *)
Definition writes_only_on_success (m : M response) : Prop :=
  forall s r s', m s = (r, s') -> succeeded r = false -> table s' = table s.

(** A computation that cannot fail and answers with a success. *)
Definition always_succeeds (m : M response) : Prop :=
  forall s r s', m s = (r, s') -> succeeded r = true.

(** The guest [create_guest] stores, and the guest [update_guest] leaves
    behind. *)
Definition created (identity : Z) (db : list Guest)
    (gt : json) (cd : date) (ct st : time) (cm : json) : Guest :=
  set_id (Some (next_id db))
    (set_exit_time cd ct st (Guest_init gt (JInt identity) cd ct cm)).

Definition updated (g0 : Guest)
    (gt inv : json) (cd : date) (ct st : time) (cm : json) : Guest :=
  set_comment cm (set_exit_time cd ct st (set_coming_time ct
    (set_coming_date cd (set_inviter_id inv (set_guest_type_id gt g0))))).

(** What it means for the stored guest [g] to carry the exit instant of
    the body [data]: the arrival date and time are those of the body, and
    the exit date and time are the arrival instant plus the stay, the
    seconds past 24:00:00 counted from the start of the next day. *)
Definition exit_derived (data : gmap string json) (g : Guest) : Prop :=
  exists cd ct st xd xt,
    rbind (getitem data "coming_date") strptime_json = Return cd /\
    rbind (getitem data "coming_time") fromisoformat_json = Return ct /\
    rbind (getitem data "stay_time") fromisoformat_json = Return st /\
    coming_date g = cd /\ coming_time g = ct /\
    exit_date g = Some xd /\ exit_time g = Some xt /\
    valid_time xt = true /\
    instant xd xt = instant cd ct + seconds_of_time st /\
    xd = (if seconds_of_time ct + seconds_of_time st <? 86400
          then cd else next_day cd).

(** A body that names another user as the inviter. *)
Definition spoofed_data : gmap string json :=
  <["inviter_id" := JInt 99]> sample_data.

(** A body without [comment]: the update changes the object in the
    session, then fails on [data['comment']]. *)
Definition no_comment_data : gmap string json :=
  <["inviter_id" := JInt 7]> (delete "comment" sample_data).

(** The body the owner 7 of the sample guest sends to update it. *)
Definition owner_data : gmap string json :=
  <["inviter_id" := JInt 7]> sample_data.

(** The filters of a listing as the specification words them, to compare
    with the query [get_guests] builds: each filter that is provided is one
    more predicate on the guest, and [start_date] and [end_date] bound the
    arrival date, each on its side, both inclusive. *)
Definition spec_matches_filters (inviter guest_type : option Z)
    (start_date end_date : option date) (g : Guest) : bool :=
  match inviter with
  | Some v => bool_decide (inviter_id g = JInt v)
  | None => true
  end &&
  match guest_type with
  | Some v => bool_decide (guest_type_id g = JInt v)
  | None => true
  end &&
  match start_date with
  | Some d => date_le d (coming_date g)
  | None => true
  end &&
  match end_date with
  | Some d => date_le (coming_date g) d
  | None => true
  end.

(** The text has ASCII characters only. *)
Definition is_ascii (s : string) : bool :=
  forallb (fun c => Nat.ltb (nat_of_ascii c) 128) (list_ascii_of_string s).

(** The body with which the owner hands the guest to user 9. *)
Definition reassigning_data : gmap string json :=
  <["inviter_id" := JInt 9]> sample_data.

(** The number of the last page of [total] rows: the number of pages, and
    page 1 when there is no row at all. *)
Definition last_page (total per_page : Z) : Z :=
  Z.max 1 ((total + per_page - 1) / per_page).

(** The same request, for another page. *)
Definition with_page (page per_page : option Z) (args : query_args) : query_args :=
  mk_query_args page per_page (arg_inviter_id args) (arg_guest_type_id args)
                (arg_start_date args) (arg_end_date args).

(** A table of two guests, and query strings: [page=2&per_page=1],
    [end_date=2024-01-31] and [start_date=2024-03-01]. *)
Definition two_guests : list Guest :=
  [sample_guest; set_id (Some 2) (set_coming_date (mk_date 2024 1 20) sample_guest)].

Definition second_page : query_args :=
  mk_query_args (Some 2) (Some 1) None None None None.

Definition only_end_date : query_args :=
  mk_query_args None None None None None (Some "2024-01-31").

Definition only_start_date : query_args :=
  mk_query_args None None None None (Some "2024-03-01") None.

(** C6, the claim as the specification states it: a [page] or [per_page]
    below 1 is answered with 400. *)
Definition nonpositive_page_is_validation_error : Prop :=
  forall args db,
    default 1 (arg_page args) <= 0 \/ default 10 (arg_per_page args) <= 0 ->
    http_status (fst (run (get_guests args) db)) = 400.

(** [page=0] *)
Definition page_zero : query_args :=
  mk_query_args (Some 0) None None None None None.

(** ** The other models of [src/app/models.py] *)

Module User.

Record t : Type := mk {
  id : Z;
  username : string;
  email : string;
  password : string
}.

(** [User.to_dict] *)
Definition to_dict (self : t) : gmap string json :=
  <["id" := JInt (id self)]>
  (<["username" := JStr (username self)]>
  (<["email" := JStr (email self)]> ∅)).

End User.

Module GuestType.

Record t : Type := mk {
  id : Z;
  name : string
}.

(** [GuestType.to_dict] *)
Definition to_dict (self : t) : gmap string json :=
  <["id" := JInt (id self)]>
  (<["name" := JStr (name self)]> ∅).

End GuestType.

(** ** More vocabulary: keys of the table *)

(** The primary keys of the rows, in storage order, and the constraint of
    the [primary_key=True] column: no key is there twice. *)
Definition keys (rows : list Guest) : list (option Z) := id <$> rows.

Definition primary_key (rows : list Guest) : Prop := NoDup (keys rows).

(** The table after the sample create. *)
Definition after_create : list Guest :=
  snd (run (create_guest accept_all 7 sample_data) [sample_guest]).


(** The table after the owner's sample update, and after the update that
    hands the guest over. *)
Definition after_update : list Guest :=
  snd (run (update_guest accept_all 7 1 owner_data) two_guests).

Definition after_handover : list Guest :=
  snd (run (update_guest accept_all 7 1 reassigning_data) two_guests).


(** What has to be there besides the body for a create or an update to get
    as far as reading the body: nothing for a create; for an update, the
    guest, owned by the caller. *)
Definition reaches_body (identity : Z) (c : command) (db : list Guest) : Prop :=
  match c with
  | Create _ => True
  | Update guest_id _ =>
      exists g, find (has_id guest_id) db = Some g /\ inviter_id g = JInt identity
  | Delete _ => False
  end.


(** Query strings of the samples: [inviter_id=7&per_page=1], an impossible
    date in [start_date], and the second guest alone on its page. *)
Definition inviter_seven : query_args :=
  mk_query_args None (Some 1) (Some 7) None None None.

Definition bad_start_date : query_args :=
  mk_query_args None None None None (Some "2024-02-30") (Some "2024-03-01").

Definition no_such_inviter : query_args :=
  mk_query_args None None (Some 5) None None None.


(** A user and a guest type for the samples. *)
Definition sample_user : User.t :=
  User.mk 7 "izyan" "izyan@example.org" "pbkdf2:sha256:260000".

Definition sample_guest_type : GuestType.t := GuestType.mk 1 "friend".

(** * Properties *)

(** ** Sample runs *)

Example strptime_march : strptime_date "2024-03-10" = Return (mk_date 2024 3 10).
Proof. reflexivity. Qed.
Example strptime_unpadded : strptime_date "2024-3-5" = Return (mk_date 2024 3 5).
Proof. reflexivity. Qed.
Example strptime_bad : strptime_date "2023-02-29" = Raise ValueError.
Proof. reflexivity. Qed.
Example fromiso_ex : time_fromisoformat "23:00:00" = Return (mk_time 23 0 0).
Proof. reflexivity. Qed.
Example strftime_ex : strftime_time (mk_time 1 30 0) = "01:30:00".
Proof. reflexivity. Qed.
Example strftime_date_ex : strftime_date (mk_date 2024 3 10) = "2024-03-10".
Proof. reflexivity. Qed.

Example create_ex :
  fst (run (create_guest accept_all 7 sample_data) []) =
  Return (mk_response 201 (GuestBody
    (<["id" := JInt 1]>
    (<["guest_type_id" := JInt 1]>
    (<["inviter_id" := JInt 7]>
    (<["coming_date" := JStr "2024-03-10"]>
    (<["coming_time" := JStr "23:00:00"]>
    (<["stay_time" := JStr "02:30:00"]>
    (<["comment" := JStr "friend"]> ∅))))))))).
Proof. vm_compute. reflexivity. Qed.

(** ** The calendar *)

Lemma days_before_next_year (y : Z) :
  days_before_year (y + 1) =
  days_before_year y + 365 + (if is_leap y then 1 else 0).
Proof.
  unfold days_before_year, is_leap.
  replace (y + 1 - 1) with y by lia.
  destruct (Z.eqb_spec (y mod 4) 0), (Z.eqb_spec (y mod 100) 0),
    (Z.eqb_spec (y mod 400) 0); cbn [negb andb orb];
    Z.div_mod_to_equations; lia.
Qed.

Lemma month_cases (m : Z) :
  1 <= m <= 12 ->
  m = 1 \/ m = 2 \/ m = 3 \/ m = 4 \/ m = 5 \/ m = 6 \/
  m = 7 \/ m = 8 \/ m = 9 \/ m = 10 \/ m = 11 \/ m = 12.
Proof. lia. Qed.

Lemma valid_date_bounds (d : date) :
  valid_date d = true ->
  1 <= year d <= 9999 /\ 1 <= month d <= 12 /\
  1 <= day d <= days_in_month (year d) (month d).
Proof. unfold valid_date. rewrite !andb_true_iff, !Z.leb_le. lia. Qed.

Lemma days_before_next_month (y m : Z) :
  1 <= m < 12 ->
  days_before_month y (m + 1) = days_before_month y m + days_in_month y m.
Proof.
  intros Hm. assert (1 <= m <= 12) as Hc by lia. apply month_cases in Hc.
  unfold days_before_month, days_in_month.
  destruct (is_leap y);
    repeat (destruct Hc as [-> | Hc]; [vm_compute; reflexivity |]);
    subst; lia.
Qed.

(** The day after [d] is one day later. *)
Lemma toordinal_next_day (d : date) :
  valid_date d = true -> toordinal (next_day d) = toordinal d + 1.
Proof.
  intros Hv. apply valid_date_bounds in Hv.
  destruct d as [y m dd]; cbn [year month day] in *.
  destruct Hv as (_ & Hm & Hd).
  unfold next_day, toordinal; cbn [year month day].
  destruct (Z.ltb_spec dd (days_in_month y m)) as [Hlt | Hge];
    cbn [year month day]; [lia |].
  assert (dd = days_in_month y m) as -> by lia. clear Hd Hge.
  destruct (Z.ltb_spec m 12) as [Hlt | Hge]; cbn [year month day].
  - rewrite days_before_next_month by lia. lia.
  - assert (m = 12) as -> by lia.
    rewrite days_before_next_year.
    assert (days_before_month (y + 1) 1 = 0) as ->
      by (unfold days_before_month; destruct (is_leap (y + 1)); reflexivity).
    assert (days_before_month y 12 + days_in_month y 12 =
            365 + (if is_leap y then 1 else 0))
      by (unfold days_before_month, days_in_month;
          destruct (is_leap y); reflexivity).
    lia.
Qed.

(** ** Times of day and their text *)

Lemma valid_time_bounds (t : time) :
  valid_time t = true ->
  0 <= hour t < 24 /\ 0 <= minute t < 60 /\ 0 <= second t < 60.
Proof.
  unfold valid_time. rewrite !andb_true_iff, !Z.leb_le, !Z.ltb_lt. lia.
Qed.

Lemma seconds_of_time_bounds (t : time) :
  valid_time t = true -> 0 <= seconds_of_time t < 86400.
Proof. intros H%valid_time_bounds. unfold seconds_of_time. lia. Qed.

Lemma time_of_seconds_valid (n : Z) :
  0 <= n < 86400 -> valid_time (time_of_seconds n) = true.
Proof.
  intros Hn. unfold valid_time, time_of_seconds; cbn [hour minute second].
  rewrite !andb_true_iff, !Z.leb_le, !Z.ltb_lt.
  Z.div_mod_to_equations. lia.
Qed.

Lemma seconds_of_time_of_seconds (n : Z) :
  seconds_of_time (time_of_seconds n) = n.
Proof.
  unfold seconds_of_time, time_of_seconds; cbn [hour minute second].
  Z.div_mod_to_equations. lia.
Qed.

Lemma make_time_inv (h m s : Z) (t : time) :
  make_time h m s = Return t -> t = mk_time h m s /\ valid_time t = true.
Proof.
  unfold make_time. destruct (valid_time (mk_time h m s)) eqn:Hv; [|discriminate].
  intros [= <-]. auto.
Qed.

Lemma time_fromisoformat_valid (s : string) (t : time) :
  time_fromisoformat s = Return t -> valid_time t = true.
Proof.
  unfold time_fromisoformat. intros H.
  repeat case_match; try discriminate; by apply make_time_inv in H as [_ ?].
Qed.

Lemma digit_of_ascii_inv (c : ascii) (x : Z) :
  digit_of_ascii c = Some x -> 0 <= x <= 9 /\ ascii_of_digit x = c.
Proof.
  unfold digit_of_ascii, ascii_of_digit.
  destruct (_ && _) eqn:Hr; [|discriminate]. intros [= <-].
  apply andb_true_iff in Hr as [H1%Z.leb_le H2%Z.leb_le]. split; [lia|].
  replace (48 + (Z.of_nat (nat_of_ascii c) - 48)) with (Z.of_nat (nat_of_ascii c)) by lia.
  by rewrite Nat2Z.id, ascii_nat_embedding.
Qed.

Lemma digit_of_ascii_of_digit (x : Z) :
  0 <= x <= 9 -> digit_of_ascii (ascii_of_digit x) = Some x.
Proof.
  intros Hx.
  assert (x = 0 \/ x = 1 \/ x = 2 \/ x = 3 \/ x = 4 \/ x = 5 \/ x = 6 \/
          x = 7 \/ x = 8 \/ x = 9) as Hc by lia.
  repeat (destruct Hc as [-> | Hc]; [reflexivity |]). by subst.
Qed.

Lemma two_digits_inv (a b : ascii) (n : Z) :
  two_digits a b = Some n ->
  0 <= n < 100 /\ pad2 n = String a (String b EmptyString).
Proof.
  unfold two_digits.
  destruct (digit_of_ascii a) as [x|] eqn:Ha; [|discriminate].
  destruct (digit_of_ascii b) as [y|] eqn:Hb; [|discriminate].
  intros [= <-].
  apply digit_of_ascii_inv in Ha as [Hx <-], Hb as [Hy <-].
  split; [lia|]. unfold pad2.
  replace ((10 * x + y) / 10 mod 10) with x by (Z.div_mod_to_equations; lia).
  replace ((10 * x + y) mod 10) with y by (Z.div_mod_to_equations; lia).
  reflexivity.
Qed.

Lemma two_digits_pad2 (n : Z) :
  0 <= n < 100 ->
  two_digits (ascii_of_digit (n / 10 mod 10)) (ascii_of_digit (n mod 10)) = Some n.
Proof.
  intros Hn. unfold two_digits.
  rewrite !digit_of_ascii_of_digit by (Z.div_mod_to_equations; lia).
  f_equal. Z.div_mod_to_equations. lia.
Qed.

(** Text in the form [HH:MM:SS] comes back as it was given. *)
Lemma strftime_fromisoformat (s : string) (t : time) :
  time_fromisoformat s = Return t -> is_hhmmss s = true -> strftime_time t = s.
Proof.
  unfold is_hhmmss, time_fromisoformat. intros Ht Hs.
  destruct s as [|a [|b [|c1 [|c [|d [|c2 [|e [|f [|]]]]]]]]]; try discriminate.
  repeat (apply andb_true_iff in Hs as [Hs ?]).
  apply Ascii.eqb_eq in Hs as ->.
  match goal with H : Ascii.eqb c2 _ = true |- _ => apply Ascii.eqb_eq in H as -> end.
  destruct (two_digits a b) as [h|] eqn:Hh; [|discriminate].
  destruct (two_digits c d) as [m|] eqn:Hm; [|discriminate].
  destruct (two_digits e f) as [sec|] eqn:Hsec; [|discriminate].
  cbn in Ht. apply make_time_inv in Ht as [-> _].
  apply two_digits_inv in Hh as [_ Hh], Hm as [_ Hm], Hsec as [_ Hsec].
  unfold strftime_time; cbn [hour minute second].
  rewrite Hh, Hm, Hsec. reflexivity.
Qed.

(** The text [strftime] writes reads back as the same time. *)
Lemma fromisoformat_strftime (t : time) :
  valid_time t = true -> time_fromisoformat (strftime_time t) = Return t.
Proof.
  intros Hv. pose proof (valid_time_bounds _ Hv) as (Hh & Hm & Hs).
  destruct t as [h m s]; cbn [hour minute second] in *.
  cbv [time_fromisoformat strftime_time pad2 String.append hour minute second].
  rewrite !two_digits_pad2 by lia.
  change (negb (Ascii.eqb ":" ":")) with false. cbv iota.
  unfold make_time. by rewrite Hv.
Qed.

Lemma strptime_date_valid (s : string) (d : date) :
  strptime_date s = Return d -> valid_date d = true.
Proof.
  unfold strptime_date. intros H.
  repeat case_match; try discriminate. by injection H as <-.
Qed.

(** ** The derived exit instant *)

Section ExitTime.

Variables (cd : date) (ct st : time) (self : Guest).
Hypothesis cd_valid : valid_date cd = true.
Hypothesis ct_valid : valid_time ct = true.
Hypothesis st_valid : valid_time st = true.

Let total := seconds_of_time ct + seconds_of_time st.

Lemma set_exit_time_fields :
  exists xd xt,
    exit_date (set_exit_time cd ct st self) = Some xd /\
    exit_time (set_exit_time cd ct st self) = Some xt /\
    valid_time xt = true /\
    xd = (if total <? 86400 then cd else next_day cd) /\
    seconds_of_time xt = (if total <? 86400 then total else total - 86400) /\
    instant xd xt = instant cd ct + seconds_of_time st.
Proof.
  pose proof (seconds_of_time_bounds _ ct_valid) as Hct.
  pose proof (seconds_of_time_bounds _ st_valid) as Hst.
  unfold set_exit_time; cbn [exit_date exit_time]. fold total.
  assert (0 <= total < 172800) as Ht by (unfold total; lia).
  eexists _, _. split; [reflexivity|]. split; [reflexivity|].
  split; [apply time_of_seconds_valid; apply Z.mod_pos_bound; lia|].
  unfold instant. rewrite seconds_of_time_of_seconds.
  destruct (Z.ltb_spec total 86400) as [Hlt | Hge].
  - rewrite (Z.div_small total 86400), (Z.mod_small total 86400) by lia.
    change (Nat.iter (Z.to_nat 0) next_day cd) with cd.
    unfold total. repeat split; lia.
  - assert (total / 86400 = 1) as -> by (Z.div_mod_to_equations; lia).
    assert (total mod 86400 = total - 86400) as ->
      by (Z.div_mod_to_equations; lia).
    change (Nat.iter (Z.to_nat 1) next_day cd) with (next_day cd).
    rewrite toordinal_next_day by done. unfold total. repeat split; lia.
Qed.

End ExitTime.

Lemma set_exit_time_frame (cd : date) (ct st : time) (self : Guest) :
  id (set_exit_time cd ct st self) = id self /\
  guest_type_id (set_exit_time cd ct st self) = guest_type_id self /\
  inviter_id (set_exit_time cd ct st self) = inviter_id self /\
  coming_date (set_exit_time cd ct st self) = coming_date self /\
  coming_time (set_exit_time cd ct st self) = coming_time self /\
  comment (set_exit_time cd ct st self) = comment self /\
  stay_time (set_exit_time cd ct st self) = Some st.
Proof. by repeat split. Qed.

(** ** Reasoning about the session monad *)

Lemma bind_Return {A B} (m : M A) (k : A -> M B) s b s' :
  bind m k s = (Return b, s') ->
  exists a s1, m s = (Return a, s1) /\ k a s1 = (Return b, s').
Proof.
  unfold bind. destruct (m s) as [[a|e] s1]; [eauto | discriminate].
Qed.

Lemma bind_cases {A B} (m : M A) (k : A -> M B) s r s' :
  bind m k s = (r, s') ->
  (exists a s1, m s = (Return a, s1) /\ k a s1 = (r, s')) \/
  (exists e, m s = (Raise e, s') /\ r = Raise e).
Proof.
  unfold bind. destruct (m s) as [[a|e] s1]; [eauto |].
  intros [= <- <-]. eauto.
Qed.

Lemma lift_Return {A} (r : result A) s a s' :
  lift r s = (Return a, s') -> r = Return a /\ s' = s.
Proof. unfold lift. by intros [= -> ->]. Qed.

Lemma ret_Return {A} (a b : A) s s' :
  ret a s = (Return b, s') -> b = a /\ s' = s.
Proof. unfold ret. by intros [= -> ->]. Qed.

Lemma rbind_Return {A B} (r : result A) (k : A -> result B) b :
  rbind r k = Return b -> exists a, r = Return a /\ k a = Return b.
Proof. destruct r; [eauto | discriminate]. Qed.

Lemma no_write_ret {A} (a : A) : no_write (ret a).
Proof. by intros s r s' [= <- <-]. Qed.
Lemma no_write_raise {A} (e : exn) : no_write (@raise A e).
Proof. by intros s r s' [= <- <-]. Qed.
Lemma no_write_lift {A} (x : result A) : no_write (lift x).
Proof. by intros s r s' [= <- <-]. Qed.
Lemma no_write_session_get k : no_write (session_get k).
Proof. by intros s r s' [= <- <-]. Qed.
Lemma no_write_session_add g : no_write (session_add g).
Proof. by intros s r s' [= <- <-]. Qed.
Lemma no_write_setattr k f g : no_write (setattr k f g).
Proof. by intros s r s' [= <- <-]. Qed.
Lemma no_write_session_delete k : no_write (session_delete k).
Proof. by intros s r s' [= <- <-]. Qed.

Lemma no_write_bind {A B} (m : M A) (k : A -> M B) :
  no_write m -> (forall a, no_write (k a)) -> no_write (bind m k).
Proof.
  intros Hm Hk s r s' [(a & s1 & H1 & H2) | (e & H1 & _)]%bind_cases.
  - rewrite (Hk _ _ _ _ H2). eauto.
  - eauto.
Qed.

Lemma no_write_paginate q page per_page : no_write (paginate q page per_page).
Proof.
  intros s r s'. unfold paginate. repeat case_match; by intros [= <- <-].
Qed.

Lemma wos_no_write (m : M response) : no_write m -> writes_only_on_success m.
Proof. intros H s r s' Hm _. eauto. Qed.

Lemma wos_bind {A} (m : M A) (k : A -> M response) :
  no_write m -> (forall a, writes_only_on_success (k a)) ->
  writes_only_on_success (bind m k).
Proof.
  intros Hm Hk s r s' [(a & s1 & H1 & H2) | (e & H1 & _)]%bind_cases Hr.
  - rewrite (Hk _ _ _ _ H2 Hr). eauto.
  - eauto.
Qed.

Lemma wos_commit (post : M response) :
  always_succeeds post ->
  writes_only_on_success (bind session_commit (fun _ => post)).
Proof.
  intros Hpost s r s' H Hr. unfold bind, session_commit in H.
  destruct (forallb _ _).
  - apply Hpost in H. congruence.
  - by injection H as <- <-.
Qed.

Create HintDb nowrite.
#[local] Hint Resolve no_write_ret no_write_raise no_write_lift
  no_write_session_get no_write_session_add no_write_setattr
  no_write_session_delete no_write_bind no_write_paginate : nowrite.

(** ** Rows of the session *)

Lemma find_update_row (k : Z) (f : Guest -> Guest) (rows : list Guest) :
  (forall g, id (f g) = id g) ->
  find (has_id k) (update_row k f rows) = f <$> find (has_id k) rows.
Proof.
  intros Hf. induction rows as [|g rows IH]; [done|]. cbn.
  destruct (has_id k g) eqn:Hg; cbn.
  - unfold has_id in *. by rewrite Hf, Hg.
  - by rewrite Hg.
Qed.

Lemma update_row_twice (k : Z) (f1 f2 : Guest -> Guest) (rows : list Guest) :
  (forall g, id (f1 g) = id g) ->
  update_row k f2 (update_row k f1 rows) = update_row k (fun g => f2 (f1 g)) rows.
Proof.
  intros Hf. induction rows as [|g rows IH]; [done|]. cbn.
  destruct (has_id k g) eqn:Hg; cbn.
  - unfold has_id in *. by rewrite Hf, Hg.
  - by rewrite Hg, IH.
Qed.

Lemma update_row_found (k : Z) (f : Guest -> Guest) (rows : list Guest) g0 :
  find (has_id k) rows = Some g0 ->
  update_row k f rows = update_row k (fun _ => f g0) rows.
Proof.
  induction rows as [|g rows IH]; [done|]. cbn.
  destruct (has_id k g) eqn:Hg.
  - by intros [= ->].
  - intros H. by rewrite IH.
Qed.

Lemma find_has_id (k : Z) (rows : list Guest) (g : Guest) :
  find (has_id k) rows = Some g -> id g = Some k /\ g ∈ rows.
Proof.
  induction rows as [|g' rows IH]; [done|]. cbn.
  destruct (has_id k g') eqn:Hg.
  - intros [= ->]. unfold has_id in Hg. apply bool_decide_eq_true in Hg.
    split; [done | left].
  - intros [? ?]%IH. split; [done | by right].
Qed.

Ltac inv_bind H :=
  let a := fresh "a" in
  let s1 := fresh "s" in
  let H1 := fresh "Hstep" in
  apply bind_Return in H as (a & s1 & H1 & H); cbv beta in H.

Ltac inv_lift H :=
  let E := fresh "E" in
  apply lift_Return in H as [E ->].

Lemma commit_check_app (db : list Guest) (g : Guest) :
  not_null g = true ->
  forallb (fun g0 => not_null g0 || bool_decide (g0 ∈ db)) (db ++ [g]) = true.
Proof.
  intros Hg. rewrite forallb_app. apply andb_true_iff. split.
  - apply forallb_forall. intros x Hx%list_elem_of_In.
    by rewrite (bool_decide_eq_true_2 _ Hx), orb_true_r.
  - cbn. by rewrite Hg.
Qed.

Lemma commit_check_update (k : Z) (f : Guest -> Guest) (db rows : list Guest) :
  (forall g, not_null (f g) = true) ->
  (forall g, g ∈ rows -> g ∈ db) ->
  forallb (fun g0 => not_null g0 || bool_decide (g0 ∈ db)) (update_row k f rows) = true.
Proof.
  intros Hf. induction rows as [|g rows IH]; intros Hsub; [done|].
  assert (forallb (fun g0 => not_null g0 || bool_decide (g0 ∈ db)) rows = true) as Hrows.
  { apply forallb_forall. intros x Hx%list_elem_of_In.
    rewrite (bool_decide_eq_true_2 (x ∈ db)), orb_true_r; [done|].
    apply Hsub. by right. }
  cbn. destruct (has_id k g); cbn.
  - by rewrite Hf, Hrows.
  - rewrite (bool_decide_eq_true_2 (g ∈ db)), orb_true_r by (apply Hsub; left).
    cbn. apply IH. intros x Hx. apply Hsub. by right.
Qed.

Section HandlerFacts.

Variable validate : gmap string json -> option Z -> gmap string (list string).

Lemma create_guest_success identity data db r db' :
  run (create_guest validate identity data) db = (r, db') ->
  succeeded r = true ->
  exists cd ct st gt cm d,
    rbind (getitem data "coming_date") strptime_json = Return cd /\
    rbind (getitem data "coming_time") fromisoformat_json = Return ct /\
    rbind (getitem data "stay_time") fromisoformat_json = Return st /\
    data !! "guest_type_id" = Some gt /\
    data !! "comment" = Some cm /\
    validate (<["inviter_id" := JInt identity]> data) None = ∅ /\
    db' = (db ++ [created identity db gt cd ct st cm])%list /\
    to_dict (created identity db gt cd ct st cm) = Return d /\
    r = Return (mk_response 201 (GuestBody d)).
Proof.
  unfold run.
  destruct (create_guest _ _ _ _) as [r0 s0] eqn:H. intros [= -> <-] Hr.
  destruct r as [resp|]; [|discriminate].
  unfold create_guest in H.
  destruct (bool_decide _) eqn:Hv; cbn [negb] in H.
  2:{ injection H as <- <-. discriminate. }
  apply bool_decide_eq_true in Hv.
  unfold getitem in *.
  rewrite !(lookup_insert_ne _ "inviter_id") in H by done.
  rewrite lookup_insert_eq in H.
  inv_bind H. inv_lift Hstep.
  inv_bind H. inv_lift Hstep.
  inv_bind H. inv_lift Hstep.
  inv_bind H. inv_lift Hstep.
  inv_bind H. inv_lift Hstep.
  inv_bind H. inv_lift Hstep.
  rewrite lookup_insert_ne in E4 by done.
  destruct (data !! "guest_type_id") as [gt|]; [|discriminate].
  destruct (data !! "comment") as [cm|]; [|discriminate].
  cbn in E2, E3, E4. simplify_eq.
  inv_bind H. unfold session_add in Hstep. cbn [pending table] in Hstep.
  injection Hstep as <- <-.
  inv_bind H. unfold session_commit in Hstep.
  destruct (forallb _ _); [|discriminate]. injection Hstep as _ <-.
  inv_bind H. inv_lift Hstep.
  apply ret_Return in H as [-> ->].
  match goal with E : to_dict _ = Return ?d |- _ => rename d into dict end.
  eexists _, _, _, _, _, dict. split_and!; eauto.
Qed.

Lemma update_guest_success identity guest_id data db r db' :
  run (update_guest validate identity guest_id data) db = (r, db') ->
  succeeded r = true ->
  exists g0 cd ct st gt inv cm d,
    find (has_id guest_id) db = Some g0 /\
    inviter_id g0 = JInt identity /\
    rbind (getitem data "coming_date") strptime_json = Return cd /\
    rbind (getitem data "coming_time") fromisoformat_json = Return ct /\
    rbind (getitem data "stay_time") fromisoformat_json = Return st /\
    data !! "guest_type_id" = Some gt /\
    data !! "inviter_id" = Some inv /\
    data !! "comment" = Some cm /\
    validate data (Some guest_id) = ∅ /\
    db' = update_row guest_id (fun _ => updated g0 gt inv cd ct st cm) db /\
    to_dict (updated g0 gt inv cd ct st cm) = Return d /\
    r = Return (mk_response 200 (GuestBody d)).
Proof.
  unfold run.
  destruct (update_guest _ _ _ _ _) as [r0 s0] eqn:H. intros [= -> <-] Hr.
  destruct r as [resp|]; [|discriminate].
  unfold update_guest in H.
  inv_bind H. unfold session_get in Hstep. cbn [pending] in Hstep.
  injection Hstep as <- <-.
  destruct (find (has_id guest_id) db) as [g0|] eqn:Hg0.
  2:{ injection H as <- <-. discriminate. }
  destruct (bool_decide (JInt identity = inviter_id g0)) eqn:Hown; cbn [negb] in H.
  2:{ injection H as <- <-. discriminate. }
  apply bool_decide_eq_true in Hown.
  destruct (bool_decide (validate data (Some guest_id) = ∅)) eqn:Hv; cbn [negb] in H.
  2:{ injection H as <- <-. discriminate. }
  apply bool_decide_eq_true in Hv.
  inv_bind H. inv_lift Hstep.
  inv_bind H. inv_lift Hstep.
  inv_bind H. inv_lift Hstep.
  inv_bind H. inv_lift Hstep.
  inv_bind H. unfold setattr in Hstep; cbn [pending table] in Hstep.
  injection Hstep as <- <-.
  inv_bind H. inv_lift Hstep.
  inv_bind H. unfold setattr in Hstep; cbn [pending table] in Hstep.
  injection Hstep as <- <-.
  inv_bind H. inv_lift Hstep.
  inv_bind H. unfold setattr in Hstep; cbn [pending table] in Hstep.
  injection Hstep as <- <-.
  inv_bind H. inv_lift Hstep.
  inv_bind H. unfold setattr in Hstep; cbn [pending table] in Hstep.
  injection Hstep as <- <-.
  inv_bind H. unfold setattr in Hstep; cbn [pending table] in Hstep.
  injection Hstep as <- <-.
  inv_bind H. inv_lift Hstep.
  inv_bind H. unfold setattr in Hstep; cbn [pending table] in Hstep.
  injection Hstep as <- <-.
  inv_bind H. unfold session_commit in Hstep.
  destruct (forallb _ _); [|discriminate]. injection Hstep as _ <-.
  inv_bind H. inv_lift Hstep.
  apply ret_Return in H as [-> ->].
  rewrite E in E4. rewrite E0 in E5. simplify_eq.
  unfold getitem in E2, E3, E6.
  destruct (data !! "guest_type_id") as [gt|]; [|discriminate].
  destruct (data !! "inviter_id") as [inv|]; [|discriminate].
  destruct (data !! "comment") as [cm|]; [|discriminate].
  cbn in E2, E3, E6. simplify_eq.
  match goal with E : to_dict _ = Return ?d |- _ => rename d into dict end.
  eexists g0, _, _, _, _, _, _, dict. split_and!; eauto.
  cbn [table]. rewrite !update_row_twice by done.
  by rewrite (update_row_found _ _ _ _ Hg0).
Qed.

Lemma delete_guest_success identity guest_id db r db' :
  run (delete_guest identity guest_id) db = (r, db') ->
  succeeded r = true ->
  exists g0,
    find (has_id guest_id) db = Some g0 /\
    inviter_id g0 = JInt identity /\
    db' = delete_row guest_id db /\
    r = Return (mk_response 204 EmptyBody).
Proof.
  unfold run.
  destruct (delete_guest _ _ _) as [r0 s0] eqn:H. intros [= -> <-] Hr.
  destruct r as [resp|]; [|discriminate].
  unfold delete_guest in H.
  inv_bind H. unfold session_get in Hstep. cbn [pending] in Hstep.
  injection Hstep as <- <-.
  destruct (find (has_id guest_id) db) as [g0|] eqn:Hg0.
  2:{ injection H as <- <-. discriminate. }
  destruct (bool_decide (JInt identity = inviter_id g0)) eqn:Hown; cbn [negb] in H.
  2:{ injection H as <- <-. discriminate. }
  apply bool_decide_eq_true in Hown.
  inv_bind H. injection Hstep as <- <-.
  inv_bind H. unfold session_commit in Hstep.
  destruct (forallb _ _); [|discriminate]. injection Hstep as _ <-.
  apply ret_Return in H as [-> ->].
  exists g0. by split_and!.
Qed.

(** A body the schema accepts, with the fields the handler reads, is
    stored: the create returns 201 and the table has one more row. *)
Lemma create_guest_returns identity data db cd ct st gt cm :
  validate (<["inviter_id" := JInt identity]> data) None = ∅ ->
  rbind (getitem data "coming_date") strptime_json = Return cd ->
  rbind (getitem data "coming_time") fromisoformat_json = Return ct ->
  rbind (getitem data "stay_time") fromisoformat_json = Return st ->
  data !! "guest_type_id" = Some gt -> gt <> JNull ->
  data !! "comment" = Some cm ->
  exists d,
    to_dict (created identity db gt cd ct st cm) = Return d /\
    run (create_guest validate identity data) db =
    (Return (mk_response 201 (GuestBody d)),
     (db ++ [created identity db gt cd ct st cm])%list).
Proof.
  intros Hv Hcd Hct Hst Hgt Hnull Hcm.
  eexists. split; [reflexivity|].
  unfold run, create_guest. rewrite Hv, bool_decide_eq_true_2 by done.
  cbn [negb]. unfold getitem in *.
  rewrite !(lookup_insert_ne _ "inviter_id") by done.
  rewrite lookup_insert_eq, Hgt.
  unfold bind at 1. unfold lift at 1. rewrite Hcd.
  unfold bind at 1. unfold lift at 1. rewrite Hct.
  unfold bind at 1. unfold lift at 1. rewrite Hst.
  unfold bind at 1. unfold lift at 1. cbn [of_option].
  unfold bind at 1. unfold lift at 1. cbn [of_option].
  unfold bind at 1. unfold lift at 1.
  rewrite lookup_insert_ne, Hcm by done. cbn [of_option].
  unfold bind at 1. unfold session_add. cbn [pending table].
  unfold bind at 1. unfold session_commit. cbn [pending table].
  rewrite commit_check_app.
  - reflexivity.
  - unfold not_null. cbn.
    rewrite bool_decide_eq_false_2 by done. reflexivity.
Qed.

(** The owner's update with a body the schema accepts and the fields the
    handler reads is stored: it returns 200 and the row is replaced. *)
Lemma update_guest_returns identity guest_id data db g0 cd ct st gt inv cm :
  find (has_id guest_id) db = Some g0 ->
  inviter_id g0 = JInt identity ->
  validate data (Some guest_id) = ∅ ->
  rbind (getitem data "coming_date") strptime_json = Return cd ->
  rbind (getitem data "coming_time") fromisoformat_json = Return ct ->
  rbind (getitem data "stay_time") fromisoformat_json = Return st ->
  data !! "guest_type_id" = Some gt -> gt <> JNull ->
  data !! "inviter_id" = Some inv -> inv <> JNull ->
  data !! "comment" = Some cm ->
  exists d,
    to_dict (updated g0 gt inv cd ct st cm) = Return d /\
    run (update_guest validate identity guest_id data) db =
    (Return (mk_response 200 (GuestBody d)),
     update_row guest_id (fun _ => updated g0 gt inv cd ct st cm) db).
Proof.
  intros Hg0 Hown Hv Hcd Hct Hst Hgt Hgtn Hinv Hinvn Hcm.
  eexists. split; [reflexivity|].
  unfold run, update_guest.
  unfold bind at 1. unfold session_get. cbn [pending]. rewrite Hg0.
  rewrite Hown, Hv, !bool_decide_eq_true_2 by done. cbn [negb].
  unfold bind at 1. unfold lift at 1. rewrite Hcd.
  unfold bind at 1. unfold lift at 1. rewrite Hct.
  unfold bind at 1. unfold lift at 1. rewrite Hst.
  unfold getitem. rewrite Hgt, Hinv, Hcm. cbn [of_option].
  unfold bind, lift, setattr, session_commit, ret. cbn [pending table].
  rewrite !update_row_twice by done.
  rewrite commit_check_update.
  - cbn [table]. by rewrite (update_row_found _ _ _ _ Hg0).
  - intros g. unfold not_null. cbn.
    by rewrite !bool_decide_eq_false_2.
  - done.
Qed.

(** *** What a handler that does not succeed leaves behind *)

Lemma to_dict_always_succeeds (g : Guest) (code : Z) :
  is_Some (stay_time g) -> (200 <=? code) && (code <? 300) = true ->
  always_succeeds
    (bind (lift (to_dict g)) (fun d => ret (mk_response code (GuestBody d)))).
Proof.
  intros [st Hst] Hcode s r s'. unfold bind, lift, ret, to_dict.
  rewrite Hst. by intros [= <- <-].
Qed.

Lemma create_guest_wos identity data :
  writes_only_on_success (create_guest validate identity data).
Proof.
  unfold create_guest. case_match; [apply wos_no_write; auto with nowrite|].
  do 6 (apply wos_bind; [auto with nowrite | intros ?]).
  intros s r s' Hrun Hr.
  unfold bind at 1 in Hrun. unfold session_add in Hrun.
  eapply wos_commit in Hrun; [exact (Hrun Hr) |].
  by apply to_dict_always_succeeds.
Qed.

Lemma update_guest_wos identity guest_id data :
  writes_only_on_success (update_guest validate identity guest_id data).
Proof.
  unfold update_guest.
  apply wos_bind; [auto with nowrite | intros [g0|]];
    [|apply wos_no_write; auto with nowrite].
  case_match; [apply wos_no_write; auto with nowrite|].
  case_match; [apply wos_no_write; auto with nowrite|].
  do 11 (apply wos_bind; [auto with nowrite | intros ?]).
  intros s r s' Hrun Hr.
  unfold bind at 1 in Hrun. unfold setattr at 1 in Hrun.
  unfold bind at 1 in Hrun. unfold lift at 1 in Hrun.
  destruct (getitem data "comment") as [cm|]; [|by injection Hrun as <- <-].
  unfold bind at 1 in Hrun. unfold setattr at 1 in Hrun.
  eapply wos_commit in Hrun; [exact (Hrun Hr) |].
  by apply to_dict_always_succeeds.
Qed.

Lemma delete_guest_wos identity guest_id :
  writes_only_on_success (delete_guest identity guest_id).
Proof.
  unfold delete_guest.
  apply wos_bind; [auto with nowrite | intros [g0|]];
    [|apply wos_no_write; auto with nowrite].
  case_match; [apply wos_no_write; auto with nowrite|].
  apply wos_bind; [auto with nowrite | intros ?].
  apply wos_commit. by intros s r s' [= <- <-].
Qed.

End HandlerFacts.

Lemma find_update_row_const (k : Z) (g1 : Guest) (rows : list Guest) :
  id g1 = Some k -> is_Some (find (has_id k) rows) ->
  find (has_id k) (update_row k (fun _ => g1) rows) = Some g1.
Proof.
  intros Hid. induction rows as [|g rows IH]; cbn; [by intros [? ?]|].
  destruct (has_id k g) eqn:Hg; cbn.
  - intros _. unfold has_id. by rewrite Hid, bool_decide_eq_true_2.
  - by rewrite Hg.
Qed.

Lemma updated_frame g0 gt inv cd ct st cm :
  id (updated g0 gt inv cd ct st cm) = id g0 /\
  guest_type_id (updated g0 gt inv cd ct st cm) = gt /\
  inviter_id (updated g0 gt inv cd ct st cm) = inv /\
  coming_date (updated g0 gt inv cd ct st cm) = cd /\
  coming_time (updated g0 gt inv cd ct st cm) = ct /\
  stay_time (updated g0 gt inv cd ct st cm) = Some st /\
  comment (updated g0 gt inv cd ct st cm) = cm.
Proof. by split_and!. Qed.

Lemma created_frame identity db gt cd ct st cm :
  id (created identity db gt cd ct st cm) = Some (next_id db) /\
  guest_type_id (created identity db gt cd ct st cm) = gt /\
  inviter_id (created identity db gt cd ct st cm) = JInt identity /\
  coming_date (created identity db gt cd ct st cm) = cd /\
  coming_time (created identity db gt cd ct st cm) = ct /\
  stay_time (created identity db gt cd ct st cm) = Some st /\
  comment (created identity db gt cd ct st cm) = cm.
Proof. by split_and!. Qed.

Ltac lookup_dict :=
  repeat (rewrite lookup_insert_ne by done); rewrite lookup_insert_eq.

Lemma to_dict_inv (g : Guest) (d : gmap string json) :
  to_dict g = Return d ->
  exists st,
    stay_time g = Some st /\
    d !! "inviter_id" = Some (inviter_id g) /\
    d !! "guest_type_id" = Some (guest_type_id g) /\
    d !! "coming_date" = Some (JStr (strftime_date (coming_date g))) /\
    d !! "coming_time" = Some (JStr (strftime_time (coming_time g))) /\
    d !! "stay_time" = Some (JStr (strftime_time st)) /\
    d !! "comment" = Some (comment g).
Proof.
  unfold to_dict. destruct (stay_time g) as [st|]; [|discriminate].
  intros [= <-]. exists st. split_and!; [done | by lookup_dict ..].
Qed.

Lemma strptime_json_valid (v : json) (d : date) :
  strptime_json v = Return d -> valid_date d = true.
Proof. destruct v; try discriminate. apply strptime_date_valid. Qed.

Lemma fromisoformat_json_valid (v : json) (t : time) :
  fromisoformat_json v = Return t -> valid_time t = true.
Proof. destruct v; try discriminate. apply time_fromisoformat_valid. Qed.

Lemma getitem_parse_inv {A} (data : gmap string json) key
    (parse : json -> result A) (a : A) :
  rbind (getitem data key) parse = Return a ->
  exists v, data !! key = Some v /\ parse v = Return a.
Proof.
  unfold getitem. destruct (data !! key) as [v|]; [|discriminate]. eauto.
Qed.

(** ** The claims *)

Lemma exit_derived_intro data g g0 cd ct st :
  rbind (getitem data "coming_date") strptime_json = Return cd ->
  rbind (getitem data "coming_time") fromisoformat_json = Return ct ->
  rbind (getitem data "stay_time") fromisoformat_json = Return st ->
  coming_date g = cd -> coming_time g = ct ->
  exit_date g = exit_date (set_exit_time cd ct st g0) ->
  exit_time g = exit_time (set_exit_time cd ct st g0) ->
  exit_derived data g.
Proof.
  intros Hcd Hct Hst Hgd Hgt Hxd Hxt.
  pose proof Hcd as (? & _ & ?%strptime_json_valid)%getitem_parse_inv.
  pose proof Hct as (? & _ & ?%fromisoformat_json_valid)%getitem_parse_inv.
  pose proof Hst as (? & _ & ?%fromisoformat_json_valid)%getitem_parse_inv.
  destruct (set_exit_time_fields cd ct st g0) as (xd & xt & E1 & E2 & ? & ? & _ & ?);
    try done.
  exists cd, ct, st, xd, xt. rewrite Hxd, Hxt. by split_and!.
Qed.


(** The example of the specification: arriving at 23:00:00 and staying
    02:30:00 gives the exit time 01:30:00 on the next calendar date. *)
Example exit_rolls_over_midnight :
  snd (run (create_guest accept_all 7 sample_data) []) =
  [mk_Guest (Some 1) (JInt 1) (JInt 7) (mk_date 2024 3 10) (mk_time 23 0 0)
            (Some (mk_time 2 30 0)) (JStr "friend")
            (Some (mk_date 2024 3 11)) (Some (mk_time 1 30 0))].
Proof. vm_compute. reflexivity. Qed.


(** C2. For every create that succeeds, the guest that is stored has the
    caller of the token as its inviter, and so has the guest in the
    response, whatever the body says about [inviter_id]. *)
Theorem create_guest_inviter_is_caller validate identity data db r db' :
  run (create_guest validate identity data) db = (r, db') ->
  succeeded r = true ->
  exists g d,
    db' = (db ++ [g])%list /\
    inviter_id g = JInt identity /\
    r = Return (mk_response 201 (GuestBody d)) /\
    d !! "inviter_id" = Some (JInt identity).
Proof.
  intros Hrun Hr.
  apply create_guest_success in Hrun
    as (cd & ct & st & gt & cm & d & _ & _ & _ & _ & _ & _ & -> & Hd & ->); [|done].
  apply to_dict_inv in Hd as (_ & _ & Hd & _).
  eexists _, d. by split_and!.
Qed.

Lemma create_guest_inviter_is_caller_witness :
  exists g d,
    snd (run (create_guest accept_all 7 spoofed_data) []) = ([] ++ [g])%list /\
    inviter_id g = JInt 7 /\
    fst (run (create_guest accept_all 7 spoofed_data) []) =
      Return (mk_response 201 (GuestBody d)) /\
    d !! "inviter_id" = Some (JInt 7).
Proof.
  apply (create_guest_inviter_is_caller accept_all 7 spoofed_data []).
  - vm_compute. reflexivity.
  - vm_compute. reflexivity.
Defined.

(** C5. An update or a delete aimed at a guest that exists and whose
    inviter is not the caller answers 403 [Access denied], not 404; aimed
    at a guest that does not exist it answers 404 [Guest not found]. In
    both cases the table is left as it was. *)
Theorem not_owner_is_denied_missing_is_not_found
    validate identity (c : command) guest_id db :
  target c = Some guest_id ->
  (forall g, find (has_id guest_id) db = Some g ->
             inviter_id g <> JInt identity ->
             run (handle validate identity c) db =
             (Return (mk_response 403 (ErrorBody "Access denied")), db)) /\
  (find (has_id guest_id) db = None ->
   run (handle validate identity c) db =
   (Return (mk_response 404 (ErrorBody "Guest not found")), db)).
Proof.
  intros Ht. split.
  - intros g Hg Hne.
    assert (bool_decide (JInt identity = inviter_id g) = false) as Hown
      by (apply bool_decide_eq_false; congruence).
    destruct c as [data | k data | k]; simplify_eq/=;
      unfold run, update_guest, delete_guest, bind, session_get;
      cbn [pending]; by rewrite Hg, Hown.
  - intros Hg.
    destruct c as [data | k data | k]; simplify_eq/=;
      unfold run, update_guest, delete_guest, bind, session_get;
      cbn [pending]; by rewrite Hg.
Qed.

Lemma not_owner_is_denied_missing_is_not_found_witness :
  run (update_guest accept_all 8 1 sample_data) [sample_guest] =
    (Return (mk_response 403 (ErrorBody "Access denied")), [sample_guest]) /\
  run (delete_guest 7 5) [sample_guest] =
    (Return (mk_response 404 (ErrorBody "Guest not found")), [sample_guest]).
Proof.
  split.
  - destruct (not_owner_is_denied_missing_is_not_found accept_all 8
                (Update 1 sample_data) 1 [sample_guest] eq_refl) as [Hdenied _].
    apply (Hdenied sample_guest).
    + reflexivity.
    + discriminate.
  - destruct (not_owner_is_denied_missing_is_not_found accept_all 7
                (Delete 5) 5 [sample_guest] eq_refl) as [_ Hmissing].
    apply Hmissing. reflexivity.
Defined.

(** C7. A create, an update or a delete that does not succeed (an error
    response, or an exception that escapes the handler) leaves the table as
    it was; and when it answers with an error response, nothing was changed
    in the session either: the checks come before the first mutation. *)
Theorem failure_leaves_store_unchanged
    validate identity (c : command) db r s' :
  handle validate identity c (mk_session db db) = (r, s') ->
  succeeded r = false ->
  snd (run (handle validate identity c) db) = db /\
  table s' = db /\
  (forall resp, r = Return resp -> pending s' = db).
Proof.
  intros Hrun Hr.
  assert (table s' = db) as Ht.
  { destruct c as [data | k data | k]; cbn [handle] in Hrun.
    - by apply (create_guest_wos validate identity data _ _ _ Hrun).
    - by apply (update_guest_wos validate identity k data _ _ _ Hrun).
    - by apply (delete_guest_wos identity k _ _ _ Hrun). }
  split_and!; [unfold run; by rewrite Hrun | done |].
  intros resp ->.
  destruct (run (handle validate identity c) db) as [r0 db0] eqn:Hrun'.
  assert (r0 = Return resp /\ db0 = table s') as [-> ->]
    by (unfold run in Hrun'; rewrite Hrun in Hrun'; by simplify_eq).
  destruct c as [data | k data | k]; cbn [handle] in *.
  - unfold create_guest in Hrun. case_match.
    + by injection Hrun as _ <-.
    + apply create_guest_success in Hrun'
        as (? & ? & ? & ? & ? & ? & _ & _ & _ & _ & _ & _ & _ & _ & ?);
        [by simplify_eq | ].
      assert (succeeded (Return resp) = true); [|congruence].
      clear Hr Hrun'.
      repeat (apply bind_Return in Hrun as (? & ? & _ & Hrun); cbv beta in Hrun).
      by apply ret_Return in Hrun as [-> _].
  - unfold update_guest, bind at 1, session_get in Hrun. cbn [pending] in Hrun.
    case_match; [|by injection Hrun as _ <-].
    case_match; [by injection Hrun as _ <-|].
    case_match; [by injection Hrun as _ <-|].
    assert (succeeded (Return resp) = true); [|congruence].
    clear Hr Hrun'.
    repeat (apply bind_Return in Hrun as (? & ? & _ & Hrun); cbv beta in Hrun).
    by apply ret_Return in Hrun as [-> _].
  - unfold delete_guest, bind at 1, session_get in Hrun. cbn [pending] in Hrun.
    case_match; [|by injection Hrun as _ <-].
    case_match; [by injection Hrun as _ <-|].
    assert (succeeded (Return resp) = true); [|congruence].
    clear Hr Hrun'.
    repeat (apply bind_Return in Hrun as (? & ? & _ & Hrun); cbv beta in Hrun).
    by apply ret_Return in Hrun as [-> _].
Qed.

Example update_fails_after_assignments :
  exists s',
    update_guest accept_all 7 1 no_comment_data
      (mk_session [sample_guest] [sample_guest]) = (Raise (KeyError "comment"), s') /\
    pending s' <> [sample_guest] /\ table s' = [sample_guest].
Proof. eexists. split_and!; [vm_compute; reflexivity | vm_compute; discriminate | reflexivity]. Qed.

Lemma failure_leaves_store_unchanged_witness :
  snd (run (handle accept_all 7 (Update 1 no_comment_data)) [sample_guest])
    = [sample_guest] /\
  table (snd (handle accept_all 7 (Update 1 no_comment_data)
                (mk_session [sample_guest] [sample_guest]))) = [sample_guest] /\
  (forall resp,
     fst (handle accept_all 7 (Update 1 no_comment_data)
            (mk_session [sample_guest] [sample_guest])) = Return resp ->
     pending (snd (handle accept_all 7 (Update 1 no_comment_data)
                     (mk_session [sample_guest] [sample_guest]))) = [sample_guest]).
Proof.
  apply (failure_leaves_store_unchanged accept_all 7 (Update 1 no_comment_data)
           [sample_guest]).
  - vm_compute. reflexivity.
  - vm_compute. reflexivity.
Defined.




(** ** Listing *)

Lemma get_guests_success args db r db' :
  run (get_guests args) db = (r, db') ->
  succeeded r = true ->
  exists select p output,
    select_guests args = Return select /\
    paginate select (default 1 (arg_page args)) (default 10 (arg_per_page args))
             (mk_session db db) = (Return p, mk_session db db) /\
    rmap to_dict (items p) = Return output /\
    r = Return (mk_response 200
          (PageBody output (total p) (prev_num p) (next_num p))) /\
    db' = db.
Proof.
  unfold run.
  destruct (get_guests _ _) as [r0 s0] eqn:H. intros [= -> <-] Hr.
  destruct r as [resp|]; [|discriminate].
  unfold get_guests in H.
  inv_bind H. inv_lift Hstep.
  inv_bind H. pose proof (no_write_paginate _ _ _ _ _ _ Hstep) as Ht.
  assert (s = mk_session db db) as ->.
  { unfold paginate in Hstep. repeat case_match; by simplify_eq. }
  inv_bind H. inv_lift Hstep0.
  apply ret_Return in H as [-> ->].
  eexists _, _, _. split_and!; eauto.
  unfold prev_num, next_num. by repeat case_match.
Qed.

Lemma paginate_inv select page per_page s p s' :
  paginate select page per_page s = (Return p, s') ->
  1 <= page /\ 1 <= per_page /\
  pg_page p = page /\ pg_per_page p = per_page /\
  items p = page_items (execute select (pending s)) page per_page /\
  total p = Z.of_nat (length (execute select (pending s))) /\
  (items p <> [] \/ page = 1).
Proof.
  unfold paginate.
  destruct (Z.ltb_spec page 1); [discriminate|].
  destruct (Z.ltb_spec per_page 1); [discriminate|].
  destruct (bool_decide _ && _) eqn:Hempty; [discriminate|].
  intros [= <- <-]. cbn. split_and!; try done.
  apply andb_false_iff in Hempty as [Hne | Heq].
  - left. by apply bool_decide_eq_false in Hne.
  - right. apply negb_false_iff in Heq. lia.
Qed.

Lemma has_next_spec (p : Pagination) :
  1 <= pg_page p -> 1 <= pg_per_page p -> 0 <= total p ->
  has_next p = true <-> pg_page p * pg_per_page p < total p.
Proof.
  intros Hpage Hper Htot. unfold has_next, pages. rewrite Z.ltb_lt.
  destruct (Z.eqb_spec (total p) 0) as [-> | Hne]; [nia|].
  split; intros Hlt.
  - apply Z.nle_gt. intros Hle.
    assert ((total p + pg_per_page p - 1) / pg_per_page p < pg_page p + 1); [|lia].
    apply Z.div_lt_upper_bound; nia.
  - assert (pg_page p + 1 <= (total p + pg_per_page p - 1) / pg_per_page p); [|lia].
    apply Z.div_le_lower_bound; nia.
Qed.

Lemma page_items_nonempty (rows : list Guest) (page per_page : Z) :
  1 <= page -> 1 <= per_page ->
  page_items rows page per_page <> [] ->
  (page - 1) * per_page < Z.of_nat (length rows).
Proof.
  intros Hpage Hper Hne. apply Z.nle_gt. intros Hle. apply Hne.
  unfold page_items. rewrite drop_ge; [by rewrite take_nil | lia].
Qed.

Lemma last_page_spec (page per_page total : Z) :
  1 <= page -> 1 <= per_page -> 0 <= total ->
  (page - 1) * per_page < total \/ page = 1 ->
  page = last_page total per_page <-> total <= page * per_page.
Proof.
  intros Hpage Hper Htot Hin. unfold last_page.
  pose proof (Z.div_mod (total + per_page - 1) per_page) as Hdm.
  pose proof (Z.mod_pos_bound (total + per_page - 1) per_page) as Hmod.
  set (c := (total + per_page - 1) / per_page) in *.
  set (m := (total + per_page - 1) mod per_page) in *.
  specialize (Hdm ltac:(lia)). specialize (Hmod ltac:(lia)).
  split; intros H; nia.
Qed.

(** The page links of a listing that succeeds: [prev_page] is null exactly
    on page 1 and is [page - 1] otherwise; [next_page] is null exactly on
    the last page (the page beyond which the query has no row) and is
    [page + 1] otherwise; and [total_guests] is the number of all the rows
    the query of [get_guests] selects, the same for every [page] and
    [per_page]. *)
Theorem pagination_links args db r db' :
  run (get_guests args) db = (r, db') ->
  succeeded r = true ->
  let page := default 1 (arg_page args) in
  let per_page := default 10 (arg_per_page args) in
  exists select guests total_guests prev_page next_page,
    select_guests args = Return select /\
    r = Return (mk_response 200
          (PageBody guests total_guests prev_page next_page)) /\
    (prev_page = None <-> page = 1) /\
    (page <> 1 -> prev_page = Some (page - 1)) /\
    (next_page = None <-> page = last_page total_guests per_page) /\
    (page <> last_page total_guests per_page -> next_page = Some (page + 1)) /\
    (page = last_page total_guests per_page <-> total_guests <= page * per_page) /\
    total_guests = Z.of_nat (length (execute select db)) /\
    (forall page2 per_page2 r2 db2,
        run (get_guests (with_page page2 per_page2 args)) db = (r2, db2) ->
        succeeded r2 = true ->
        exists guests2 prev2 next2,
          r2 = Return (mk_response 200
                 (PageBody guests2 total_guests prev2 next2))).
Proof.
  intros Hrun Hr page per_page.
  apply get_guests_success in Hrun
    as (select & p & output & Hsel & Hp & Hout & -> & ->); [|done].
  apply paginate_inv in Hp as (Hpage & Hper & Epage & Eper & Eitems & Etot & Hin).
  cbn [pending] in Etot, Eitems.
  fold page in Hpage, Epage, Eitems, Hin. fold per_page in Hper, Eper, Eitems.
  assert (0 <= total p) as Htot by lia.
  pose proof (has_next_spec p) as Hnext. rewrite Epage, Eper in Hnext.
  specialize (Hnext Hpage Hper Htot).
  assert (page = last_page (total p) per_page <-> total p <= page * per_page)
    as Hlast.
  { apply last_page_spec; try done.
    destruct Hin as [Hne | ->]; [left | by right].
    rewrite Etot. apply page_items_nonempty; try done. by rewrite <- Eitems. }
  exists select, output, (total p), (prev_num p), (next_num p).
  unfold prev_num, next_num, has_prev. rewrite Epage.
  split_and!; try done.
  - destruct (Z.ltb_spec 1 page); split; intros; (done || lia).
  - intros Hne. destruct (Z.ltb_spec 1 page); [done | lia].
  - rewrite Hlast. destruct (has_next p); split; intros; try done; [|lia].
    assert (page * per_page < total p) by by apply Hnext. lia.
  - rewrite Hlast. intros Hlt.
    assert (has_next p = true) as -> by (apply Hnext; lia). done.
  - intros page2 per_page2 r2 db2 Hrun2 Hr2.
    apply get_guests_success in Hrun2
      as (select2 & p2 & output2 & Hsel2 & Hp2 & _ & -> & _); [|done].
    assert (select2 = select) as -> by (change (select_guests _) with
      (select_guests args) in Hsel2; congruence).
    apply paginate_inv in Hp2 as (_ & _ & _ & _ & _ & Etot2 & _).
    cbn [pending] in Etot2. rewrite Etot, <- Etot2. by eexists _, _, _.
Qed.

Lemma pagination_links_witness :
  exists select guests total_guests prev_page next_page,
    select_guests second_page = Return select /\
    fst (run (get_guests second_page) two_guests) = Return (mk_response 200
          (PageBody guests total_guests prev_page next_page)) /\
    (prev_page = None <-> 2 = 1) /\
    (2 <> 1 -> prev_page = Some (2 - 1)) /\
    (next_page = None <-> 2 = last_page total_guests 1) /\
    (2 <> last_page total_guests 1 -> next_page = Some (2 + 1)) /\
    (2 = last_page total_guests 1 <-> total_guests <= 2 * 1) /\
    total_guests = Z.of_nat (length (execute select two_guests)) /\
    (forall page2 per_page2 r2 db2,
        run (get_guests (with_page page2 per_page2 second_page)) two_guests = (r2, db2) ->
        succeeded r2 = true ->
        exists guests2 prev2 next2,
          r2 = Return (mk_response 200
                 (PageBody guests2 total_guests prev2 next2))).
Proof.
  apply (pagination_links second_page two_guests
           (fst (run (get_guests second_page) two_guests))
           (snd (run (get_guests second_page) two_guests))).
  - vm_compute. reflexivity.
  - vm_compute. reflexivity.
Defined.

(** *** The date filters *)

(** Without a [start_date] the query has no clause on the date, whatever
    [end_date] is. *)
Lemma select_guests_without_start_date p pp i g ed :
  select_guests (mk_query_args p pp i g None ed) =
  select_guests (mk_query_args p pp i g None None).
Proof. reflexivity. Qed.

(** With both dates the query keeps the guests that arrive in the closed
    range. *)
Lemma select_guests_both_dates p pp sd ed d1 d2 :
  sd <> EmptyString ->
  strptime_date sd = Return d1 -> strptime_date ed = Return d2 ->
  exists select,
    select_guests (mk_query_args p pp None None (Some sd) (Some ed)) = Return select /\
    forall g, matches select g = date_le d1 (coming_date g) && date_le (coming_date g) d2.
Proof.
  intros Hsd H1 H2. unfold select_guests. cbn.
  rewrite bool_decide_eq_false_2 by done. cbn. rewrite H1. cbn. rewrite H2. cbn.
  eexists. split; [done|]. intros g. cbn. unfold Guest_start_date.
  by rewrite andb_true_r.
Qed.

(** C3, at the inputs where the code leaves the claim. With [end_date]
    alone (the guest arrives on 2024-02-15, after the bound 2024-01-31) no
    bound is applied and the guest is listed; with [start_date] alone the
    missing [end_date] is parsed all the same, and the request ends in a
    [TypeError]. *)
Theorem end_date_filter_hangs_on_start_date :
  (to_dict sample_guest = Return sample_guest_dict /\
   strptime_date "2024-01-31" = Return (mk_date 2024 1 31) /\
   date_le (coming_date sample_guest) (mk_date 2024 1 31) = false /\
   run (get_guests only_end_date) [sample_guest] =
     (Return (mk_response 200 (PageBody [sample_guest_dict] 1 None None)),
      [sample_guest])) /\
  run (get_guests only_start_date) [sample_guest] =
    (Raise TypeError, [sample_guest]).
Proof.
  split_and!; vm_compute; reflexivity.
Qed.

(** C4, at the input where the code leaves the claim. With [end_date]
    alone, [get_guests] adds no clause on the date: [total_guests] is 1,
    the one guest of the table, who arrives on 2024-02-15, while no row
    matches the filter as the specification words it (arrival on or before
    2024-01-31). The links of the page are those of a single page. *)
Theorem total_guests_counts_past_end_date :
  run (get_guests only_end_date) [sample_guest] =
    (Return (mk_response 200 (PageBody [sample_guest_dict] 1 None None)),
     [sample_guest]) /\
  strptime_date "2024-01-31" = Return (mk_date 2024 1 31) /\
  List.filter (spec_matches_filters None None None (Some (mk_date 2024 1 31)))
              [sample_guest] = [].
Proof. split_and!; vm_compute; reflexivity. Qed.

(** *** Page numbers below 1 *)

Lemma strptime_date_raises (s : string) (e : exn) :
  strptime_date s = Raise e -> e = ValueError.
Proof.
  unfold strptime_date. intros H. repeat case_match; by simplify_eq.
Qed.

Lemma strptime_opt_raises (o : option string) (e : exn) :
  strptime_opt o = Raise e -> e = ValueError \/ e = TypeError.
Proof.
  destruct o as [s|]; cbn.
  - intros ->%strptime_date_raises. by left.
  - intros [= <-]. by right.
Qed.

Lemma select_guests_raises (args : query_args) (e : exn) :
  select_guests args = Raise e -> e = ValueError \/ e = TypeError.
Proof.
  unfold select_guests. intros H.
  destruct (truthy_str (arg_start_date args)); [|discriminate].
  cbn in H.
  destruct (strptime_opt (arg_start_date args)) eqn:E1; cbn in H.
  - destruct (strptime_opt (arg_end_date args)) eqn:E2; cbn in H; [discriminate|].
    injection H as <-. by eapply strptime_opt_raises.
  - injection H as <-. by eapply strptime_opt_raises.
Qed.

(** Page 0 is answered with the 404 of the paginator. *)
Lemma page_zero_is_not_found : ~ nonpositive_page_is_validation_error.
Proof.
  intros H.
  assert (default 1 (arg_page page_zero) <= 0 \/
          default 10 (arg_per_page page_zero) <= 0) as Hpage
    by (left; vm_compute; discriminate).
  specialize (H page_zero [] Hpage). vm_compute in H. discriminate H.
Qed.

(** C6, amended. A listing with a [page] or [per_page] below 1 does not
    succeed and is never answered with 400: when the filters are built it
    ends in the 404 of the paginator, and otherwise in the [ValueError] or
    [TypeError] of a date filter. The table is left as it was. *)
Theorem nonpositive_page_is_not_found args db :
  default 1 (arg_page args) <= 0 \/ default 10 (arg_per_page args) <= 0 ->
  exists e,
    run (get_guests args) db = (Raise e, db) /\
    (e = HTTPException 404 \/ e = ValueError \/ e = TypeError) /\
    ((exists select, select_guests args = Return select) -> e = HTTPException 404) /\
    http_status (Raise e) <> 400 /\
    succeeded (Raise e) = false.
Proof.
  intros Hpage. unfold run, get_guests, bind, lift.
  destruct (select_guests args) as [select|e] eqn:Hsel.
  - exists (HTTPException 404). unfold paginate.
    destruct (Z.ltb_spec (default 1 (arg_page args)) 1);
      [|destruct (Z.ltb_spec (default 10 (arg_per_page args)) 1); [|lia]];
      by split_and!; auto.
  - exists e. apply select_guests_raises in Hsel as Hcases.
    split_and!; auto.
    + by intros [? ?].
    + by destruct Hcases as [-> | ->].
Qed.

Lemma nonpositive_page_is_not_found_witness :
  exists e,
    run (get_guests page_zero) [sample_guest] = (Raise e, [sample_guest]) /\
    (e = HTTPException 404 \/ e = ValueError \/ e = TypeError) /\
    ((exists select, select_guests page_zero = Return select) -> e = HTTPException 404) /\
    http_status (Raise e) <> 400 /\
    succeeded (Raise e) = false.
Proof.
  apply (nonpositive_page_is_not_found page_zero [sample_guest]).
  left. vm_compute. discriminate.
Defined.

(** *** Filters with the value 0 *)

Lemma where_elem (select : list clause) (c c' : clause) :
  c' ∈ where_ select c <-> c' ∈ select \/ c' = c.
Proof. unfold where_. rewrite elem_of_app, list_elem_of_singleton. tauto. Qed.

(** C10. An [inviter_id] or a [guest_type_id] of 0 is handled as a missing
    one: the request is the same computation as without the parameter, and
    the query it builds has no clause on that column. *)
Theorem zero_filter_is_no_filter p pp i g sd ed :
  get_guests (mk_query_args p pp (Some 0) g sd ed) =
    get_guests (mk_query_args p pp None g sd ed) /\
  get_guests (mk_query_args p pp i (Some 0) sd ed) =
    get_guests (mk_query_args p pp i None sd ed) /\
  (forall select v,
      select_guests (mk_query_args p pp (Some 0) g sd ed) = Return select ->
      InviterIs v ∉ select) /\
  (forall select v,
      select_guests (mk_query_args p pp i (Some 0) sd ed) = Return select ->
      GuestTypeIs v ∉ select).
Proof.
  split_and!; [reflexivity | reflexivity | |].
  - intros select v. unfold select_guests.
    cbn [arg_inviter_id arg_guest_type_id arg_start_date arg_end_date].
    change (truthy_int (Some 0)) with false.
    destruct (truthy_int g), (truthy_str sd), (strptime_opt sd), (strptime_opt ed);
      cbn; intros Hsel; try discriminate Hsel; injection Hsel as <-;
      unfold where_; intros Hin; cbn in Hin;
      repeat (apply elem_of_cons in Hin as [Hin | Hin]; [discriminate Hin|]);
      by apply elem_of_nil in Hin.
  - intros select v. unfold select_guests.
    cbn [arg_inviter_id arg_guest_type_id arg_start_date arg_end_date].
    change (truthy_int (Some 0)) with false.
    destruct (truthy_int i), (truthy_str sd), (strptime_opt sd), (strptime_opt ed);
      cbn; intros Hsel; try discriminate Hsel; injection Hsel as <-;
      unfold where_; intros Hin; cbn in Hin;
      repeat (apply elem_of_cons in Hin as [Hin | Hin]; [discriminate Hin|]);
      by apply elem_of_nil in Hin.
Qed.

Example zero_inviter_lists_everyone :
  run (get_guests (mk_query_args None None (Some 0) None None None)) two_guests =
  run (get_guests (mk_query_args None None None None None None)) two_guests.
Proof. reflexivity. Qed.

(** * Further properties of the handlers *)

(** ** Keys *)

Lemma next_id_above (rows : list Guest) (g : Guest) (k : Z) :
  g ∈ rows -> id g = Some k -> k < next_id rows.
Proof.
  unfold next_id. induction rows as [|g' rows IH]; intros Hin Hk.
  - by apply elem_of_nil in Hin.
  - cbn. apply elem_of_cons in Hin as [<- | Hin].
    + rewrite Hk. cbn. lia.
    + specialize (IH Hin Hk). lia.
Qed.

Lemma next_id_fresh (rows : list Guest) (g : Guest) :
  g ∈ rows -> has_id (next_id rows) g = false.
Proof.
  intros Hin. unfold has_id. apply bool_decide_eq_false. intros Hk.
  pose proof (next_id_above rows g _ Hin Hk). lia.
Qed.

Lemma find_none_iff (k : Z) (rows : list Guest) :
  find (has_id k) rows = None <-> forall g, g ∈ rows -> has_id k g = false.
Proof.
  induction rows as [|g rows IH]; cbn.
  - split; [|done]. intros _ g Hg. by apply elem_of_nil in Hg.
  - destruct (has_id k g) eqn:Hg.
    + split; [done|]. intros H. specialize (H g ltac:(left)). congruence.
    + rewrite IH. split.
      * intros H g' [-> | Hin]%elem_of_cons; auto.
      * intros H g' Hin. apply H. by right.
Qed.

Lemma find_snoc_fresh (k : Z) (rows : list Guest) (g : Guest) :
  (forall g0, g0 ∈ rows -> has_id k g0 = false) -> has_id k g = true ->
  find (has_id k) (rows ++ [g]) = Some g.
Proof.
  intros Hrows Hg. induction rows as [|g0 rows IH]; cbn.
  - by rewrite Hg.
  - rewrite (Hrows g0) by left. apply IH. intros g1 Hin. apply Hrows. by right.
Qed.

Lemma delete_row_snoc_fresh (k : Z) (rows : list Guest) (g : Guest) :
  (forall g0, g0 ∈ rows -> has_id k g0 = false) -> has_id k g = true ->
  delete_row k (rows ++ [g]) = rows.
Proof.
  intros Hrows Hg. induction rows as [|g0 rows IH]; cbn.
  - by rewrite Hg.
  - rewrite (Hrows g0) by left. f_equal. apply IH.
    intros g1 Hin. apply Hrows. by right.
Qed.

Lemma keys_update_row (k : Z) (f : Guest -> Guest) (rows : list Guest) :
  (forall g, id (f g) = id g) -> keys (update_row k f rows) = keys rows.
Proof.
  intros Hf. unfold keys. induction rows as [|g rows IH]; [done|]. cbn.
  destruct (has_id k g); cbn; [by rewrite Hf | by rewrite IH].
Qed.

Lemma keys_delete_row (k : Z) (rows : list Guest) :
  keys (delete_row k rows) `sublist_of` keys rows.
Proof.
  unfold keys. induction rows as [|g rows IH]; [done|]. cbn.
  destruct (has_id k g); cbn.
  - by apply sublist_cons.
  - by apply sublist_skip.
Qed.

Lemma find_delete_row (k k' : Z) (rows : list Guest) :
  primary_key rows ->
  find (has_id k') (delete_row k rows) =
  if bool_decide (k' = k) then None else find (has_id k') rows.
Proof.
  unfold primary_key, keys. induction rows as [|g rows IH]; cbn.
  - intros _. by case_bool_decide.
  - intros [Hnin Hnd]%NoDup_cons. specialize (IH Hnd).
    destruct (has_id k g) eqn:Hg.
    + unfold has_id in Hg. apply bool_decide_eq_true in Hg.
      case_bool_decide as Hk.
      * subst k'. apply find_none_iff. intros g0 Hin.
        unfold has_id. apply bool_decide_eq_false. intros Hg0.
        apply Hnin. rewrite Hg, <- Hg0. by apply list_elem_of_fmap_2.
      * unfold has_id at 2. rewrite bool_decide_eq_false_2; [done|].
        rewrite Hg. congruence.
    + cbn. destruct (has_id k' g) eqn:Hg'.
      * case_bool_decide; [subst; congruence | done].
      * apply IH.
Qed.

Lemma to_dict_id (g : Guest) (d : gmap string json) (k : Z) :
  to_dict g = Return d -> id g = Some k -> d !! "id" = Some (JInt k).
Proof.
  unfold to_dict. destruct (stay_time g); [|discriminate].
  intros [= <-] ->. by rewrite lookup_insert_eq.
Qed.

Lemma get_guest_found (k : Z) (db : list Guest) (g : Guest) d :
  find (has_id k) db = Some g -> to_dict g = Return d ->
  run (get_guest k) db = (Return (mk_response 200 (GuestBody d)), db).
Proof.
  intros Hg Hd. unfold run, get_guest, bind, session_get, lift, ret.
  cbn [pending]. by rewrite Hg, Hd.
Qed.

Lemma get_guest_missing (k : Z) (db : list Guest) :
  find (has_id k) db = None ->
  run (get_guest k) db = (Return (mk_response 404 (ErrorBody "Guest not found")), db).
Proof.
  intros Hg. unfold run, get_guest, bind, session_get, ret.
  cbn [pending]. by rewrite Hg.
Qed.

(** ** Create, read, delete *)

(** X1. The guest of a successful create can be read back: the response
    carries a key no row of the table had, and [get_guest] with that key on
    the new table answers 200 with the very body the create returned. *)
Theorem create_then_get_guest validate identity data db r db' :
  run (create_guest validate identity data) db = (r, db') ->
  succeeded r = true ->
  exists k d,
    r = Return (mk_response 201 (GuestBody d)) /\
    d !! "id" = Some (JInt k) /\
    find (has_id k) db = None /\
    run (get_guest k) db' = (Return (mk_response 200 (GuestBody d)), db').
Proof.
  intros Hrun Hr.
  apply create_guest_success in Hrun
    as (cd & ct & st & gt & cm & d & _ & _ & _ & _ & _ & _ & -> & Hd & ->); [|done].
  exists (next_id db), d.
  assert (forall g, g ∈ db -> has_id (next_id db) g = false) as Hfresh
    by apply next_id_fresh.
  split_and!; [done | | |].
  - by apply (to_dict_id _ _ _ Hd).
  - by apply find_none_iff.
  - eapply get_guest_found; [|exact Hd].
    apply find_snoc_fresh; [done|].
    unfold has_id. by apply bool_decide_eq_true.
Qed.

Lemma create_then_get_guest_witness :
  exists k d,
    fst (run (create_guest accept_all 7 sample_data) [sample_guest])
      = Return (mk_response 201 (GuestBody d)) /\
    d !! "id" = Some (JInt k) /\
    find (has_id k) [sample_guest] = None /\
    run (get_guest k) after_create = (Return (mk_response 200 (GuestBody d)), after_create).
Proof.
  apply (create_then_get_guest accept_all 7 sample_data [sample_guest]).
  - vm_compute. reflexivity.
  - vm_compute. reflexivity.
Defined.

Lemma handle_failure_keeps_table validate identity (c : command) db r db' :
  run (handle validate identity c) db = (r, db') ->
  succeeded r = false -> db' = db.
Proof.
  unfold run. destruct (handle _ _ _ _) as [r0 s0] eqn:H. intros [= -> <-] Hr.
  destruct c as [data | k data | k]; cbn [handle] in H.
  - by apply (create_guest_wos validate identity data _ _ _ H).
  - by apply (update_guest_wos validate identity k data _ _ _ H).
  - by apply (delete_guest_wos identity k _ _ _ H).
Qed.

(** X2. The primary key stays a key: whatever a create, an update or a
    delete answers, a table without a repeated key is left without one. *)
Theorem primary_key_preserved validate identity (c : command) db r db' :
  run (handle validate identity c) db = (r, db') ->
  primary_key db -> primary_key db'.
Proof.
  intros Hrun Hpk. destruct (succeeded r) eqn:Hr.
  2:{ by rewrite (handle_failure_keeps_table _ _ _ _ _ _ Hrun Hr). }
  destruct c as [data | k data | k]; cbn [handle] in Hrun.
  - apply create_guest_success in Hrun
      as (cd & ct & st & gt & cm & d & _ & _ & _ & _ & _ & _ & -> & _); [|done].
    unfold primary_key, keys in *. rewrite fmap_app. apply NoDup_app.
    split_and!; [done | | apply NoDup_singleton].
    intros x Hx ->%list_elem_of_singleton.
    apply list_elem_of_fmap in Hx as (g & Hg & Hin). cbn in Hg.
    pose proof (next_id_above db g (next_id db) Hin (eq_sym Hg)). lia.
  - apply update_guest_success in Hrun
      as (g0 & cd & ct & st & gt & inv & cm & d & Hg0 & _ & _ & _ & _ & _ & _ & _
          & _ & -> & _); [|done].
    unfold primary_key.
    rewrite <- (update_row_found k (fun g => updated g gt inv cd ct st cm) db g0 Hg0).
    by rewrite keys_update_row.
  - apply delete_guest_success in Hrun as (g0 & _ & _ & -> & _); [|done].
    unfold primary_key. eapply sublist_NoDup; [exact Hpk | apply keys_delete_row].
Qed.

Lemma primary_key_preserved_witness : primary_key after_create.
Proof.
  apply (primary_key_preserved accept_all 7 (Create sample_data) [sample_guest]
           (fst (run (create_guest accept_all 7 sample_data) [sample_guest]))).
  - vm_compute. reflexivity.
  - apply NoDup_singleton.
Defined.

(** X3. After a successful delete the guest is gone and nobody else is:
    on a table with a proper key, [get_guest] with the deleted key answers
    404, and every other key finds the row it found before. *)
Theorem delete_then_get_guest identity guest_id db r db' :
  run (delete_guest identity guest_id) db = (r, db') ->
  succeeded r = true ->
  primary_key db ->
  r = Return (mk_response 204 EmptyBody) /\
  run (get_guest guest_id) db' =
    (Return (mk_response 404 (ErrorBody "Guest not found")), db') /\
  (forall k, k <> guest_id -> find (has_id k) db' = find (has_id k) db).
Proof.
  intros Hrun Hr Hpk.
  apply delete_guest_success in Hrun as (g0 & _ & _ & -> & ->); [|done].
  split_and!; [done | |].
  - apply get_guest_missing. rewrite find_delete_row by done.
    by rewrite bool_decide_eq_true_2.
  - intros k Hk. rewrite find_delete_row by done.
    by rewrite bool_decide_eq_false_2.
Qed.

Lemma delete_then_get_guest_witness :
  fst (run (delete_guest 7 1) two_guests) = Return (mk_response 204 EmptyBody) /\
  run (get_guest 1) (snd (run (delete_guest 7 1) two_guests)) =
    (Return (mk_response 404 (ErrorBody "Guest not found")),
     snd (run (delete_guest 7 1) two_guests)) /\
  (forall k, k <> 1 ->
     find (has_id k) (snd (run (delete_guest 7 1) two_guests)) =
     find (has_id k) two_guests).
Proof.
  apply (delete_then_get_guest 7 1 two_guests).
  - vm_compute. reflexivity.
  - vm_compute. reflexivity.
  - unfold primary_key, keys, two_guests. cbn.
    apply NoDup_cons. split; [|apply NoDup_singleton].
    intros Hx%list_elem_of_singleton. discriminate Hx.
Defined.

Lemma commit_check_subset (tbl rows : list Guest) :
  (forall g, g ∈ rows -> g ∈ tbl) ->
  forallb (fun g0 => not_null g0 || bool_decide (g0 ∈ tbl)) rows = true.
Proof.
  intros Hsub. apply forallb_forall. intros x Hx%list_elem_of_In.
  by rewrite (bool_decide_eq_true_2 (x ∈ tbl)), orb_true_r by auto.
Qed.

(** X4. A create followed by the delete of the new guest by the same caller
    gives back the table there was before: the delete answers 204 and
    leaves exactly the old rows. *)
Theorem create_then_delete validate identity data db r db' :
  run (create_guest validate identity data) db = (r, db') ->
  succeeded r = true ->
  exists k d,
    r = Return (mk_response 201 (GuestBody d)) /\
    d !! "id" = Some (JInt k) /\
    run (delete_guest identity k) db' = (Return (mk_response 204 EmptyBody), db).
Proof.
  intros Hrun Hr.
  apply create_guest_success in Hrun
    as (cd & ct & st & gt & cm & d & _ & _ & _ & _ & _ & _ & -> & Hd & ->); [|done].
  exists (next_id db), d. split_and!; [done | by apply (to_dict_id _ _ _ Hd) |].
  assert (forall g, g ∈ db -> has_id (next_id db) g = false) as Hfresh
    by apply next_id_fresh.
  assert (has_id (next_id db) (created identity db gt cd ct st cm) = true) as Hnew
    by (unfold has_id; by apply bool_decide_eq_true).
  unfold run, delete_guest, bind, session_get, session_delete, session_commit, ret.
  cbn [pending table].
  rewrite (find_snoc_fresh _ _ _ Hfresh Hnew).
  change (inviter_id (created identity db gt cd ct st cm)) with (JInt identity).
  rewrite bool_decide_eq_true_2 by done. cbn [negb pending table].
  rewrite (delete_row_snoc_fresh _ _ _ Hfresh Hnew).
  rewrite commit_check_subset; [done|].
  intros g Hg. apply elem_of_app. by left.
Qed.

Lemma create_then_delete_witness :
  exists k d,
    fst (run (create_guest accept_all 7 sample_data) [sample_guest])
      = Return (mk_response 201 (GuestBody d)) /\
    d !! "id" = Some (JInt k) /\
    run (delete_guest 7 k) after_create =
      (Return (mk_response 204 EmptyBody), [sample_guest]).
Proof.
  apply (create_then_delete accept_all 7 sample_data [sample_guest]).
  - vm_compute. reflexivity.
  - vm_compute. reflexivity.
Defined.

(** ** Update *)

Lemma find_update_row_other (k k' : Z) (f : Guest -> Guest) (rows : list Guest) :
  k' <> k -> (forall g, id (f g) = id g) ->
  find (has_id k') (update_row k f rows) = find (has_id k') rows.
Proof.
  intros Hk Hf. induction rows as [|g rows IH]; [done|]. cbn.
  destruct (has_id k g) eqn:Hg; cbn.
  - unfold has_id in *. rewrite Hf. apply bool_decide_eq_true in Hg.
    by rewrite !bool_decide_eq_false_2 by (rewrite Hg; congruence).
  - by rewrite IH.
Qed.

Lemma update_row_const_twice (k : Z) (u : Guest) (rows : list Guest) :
  id u = Some k ->
  update_row k (fun _ => u) (update_row k (fun _ => u) rows) =
  update_row k (fun _ => u) rows.
Proof.
  intros Hu. induction rows as [|g rows IH]; [done|]. cbn.
  destruct (has_id k g) eqn:Hg; cbn.
  - unfold has_id at 1. by rewrite Hu, bool_decide_eq_true_2.
  - by rewrite Hg, IH.
Qed.

Section UpdateRun.

Variable validate : gmap string json -> option Z -> gmap string (list string).

(** What an update of the owner with an accepted, readable body does: all
    that is left open is whether the flush goes through. *)
Lemma update_guest_run identity guest_id data db g0 cd ct st gt inv cm :
  find (has_id guest_id) db = Some g0 ->
  inviter_id g0 = JInt identity ->
  validate data (Some guest_id) = ∅ ->
  rbind (getitem data "coming_date") strptime_json = Return cd ->
  rbind (getitem data "coming_time") fromisoformat_json = Return ct ->
  rbind (getitem data "stay_time") fromisoformat_json = Return st ->
  data !! "guest_type_id" = Some gt ->
  data !! "inviter_id" = Some inv ->
  data !! "comment" = Some cm ->
  let u := updated g0 gt inv cd ct st cm in
  let db' := update_row guest_id (fun _ => u) db in
  exists d,
    to_dict u = Return d /\
    run (update_guest validate identity guest_id data) db =
    if forallb (fun g => not_null g || bool_decide (g ∈ db)) db'
    then (Return (mk_response 200 (GuestBody d)), db')
    else (Raise IntegrityError, db).
Proof.
  intros Hg0 Hown Hv Hcd Hct Hst Hgt Hinv Hcm u db'.
  eexists. split; [reflexivity|].
  unfold run, update_guest.
  unfold bind at 1. unfold session_get. cbn [pending]. rewrite Hg0.
  rewrite Hown, Hv, !bool_decide_eq_true_2 by done. cbn [negb].
  unfold bind at 1. unfold lift at 1. rewrite Hcd.
  unfold bind at 1. unfold lift at 1. rewrite Hct.
  unfold bind at 1. unfold lift at 1. rewrite Hst.
  unfold getitem. rewrite Hgt, Hinv, Hcm. cbn [of_option].
  unfold bind, lift, setattr, session_commit, ret. cbn [pending table].
  rewrite !update_row_twice by done.
  rewrite (update_row_found _ _ _ _ Hg0).
  subst db' u. unfold updated. by destruct (forallb _ _).
Qed.

End UpdateRun.

(** X5. A successful update touches one row only: the keys of the table,
    in their order, are what they were (so no row is added or lost), and
    every other key finds the row it found before. *)
Theorem update_guest_frame validate identity guest_id data db r db' :
  run (update_guest validate identity guest_id data) db = (r, db') ->
  succeeded r = true ->
  keys db' = keys db /\
  length db' = length db /\
  (forall k, k <> guest_id -> find (has_id k) db' = find (has_id k) db).
Proof.
  intros Hrun Hr.
  apply update_guest_success in Hrun
    as (g0 & cd & ct & st & gt & inv & cm & d & Hg0 & _ & _ & _ & _ & _ & _ & _
        & _ & -> & _); [|done].
  rewrite <- (update_row_found guest_id
                (fun g => updated g gt inv cd ct st cm) db g0 Hg0).
  assert (keys (update_row guest_id (fun g => updated g gt inv cd ct st cm) db)
          = keys db) as Hkeys by by apply keys_update_row.
  split_and!; [done | |].
  - apply (f_equal length) in Hkeys. unfold keys in Hkeys.
    by rewrite !length_fmap in Hkeys.
  - intros k Hk. by apply find_update_row_other.
Qed.

Lemma update_guest_frame_witness :
  keys after_update = keys two_guests /\
  length after_update = length two_guests /\
  (forall k, k <> 1 -> find (has_id k) after_update = find (has_id k) two_guests).
Proof.
  apply (update_guest_frame accept_all 7 1 owner_data two_guests
           (fst (run (update_guest accept_all 7 1 owner_data) two_guests))).
  - vm_compute. reflexivity.
  - vm_compute. reflexivity.
Defined.

(** X6. An update that names another user locks the caller out: once an
    update whose body has the integer [inviter_id] of another user has
    succeeded, every further update or delete of that guest by the same
    caller is answered 403 [Access denied] and changes nothing. *)
Theorem handover_locks_out_caller
    validate identity guest_id data other db r db' (c : command) :
  run (update_guest validate identity guest_id data) db = (r, db') ->
  succeeded r = true ->
  data !! "inviter_id" = Some (JInt other) ->
  other <> identity ->
  target c = Some guest_id ->
  run (handle validate identity c) db' =
  (Return (mk_response 403 (ErrorBody "Access denied")), db').
Proof.
  intros Hrun Hr Hinv Hne Ht.
  apply update_guest_success in Hrun
    as (g0 & cd & ct & st & gt & inv' & cm & d & Hg0 & _ & _ & _ & _ & _ & Hinv'
        & _ & _ & -> & _); [|done].
  assert (inv' = JInt other) as -> by congruence.
  set (u := updated g0 gt (JInt other) cd ct st cm).
  assert (find (has_id guest_id) (update_row guest_id (fun _ => u) db) = Some u)
    as Hfind.
  { apply find_update_row_const; [|by eexists].
    apply find_has_id in Hg0 as [<- _]. apply updated_frame. }
  assert (bool_decide (JInt identity = inviter_id u) = false) as Hown
    by (apply bool_decide_eq_false; cbn; congruence).
  destruct c as [data1 | k data1 | k]; cbn [target] in Ht;
    try discriminate Ht; injection Ht as ->;
    unfold run, handle, update_guest, delete_guest, bind, session_get;
    cbn [pending]; by rewrite Hfind, Hown.
Qed.

Lemma handover_locks_out_caller_witness :
  run (handle accept_all 7 (Delete 1)) after_handover =
  (Return (mk_response 403 (ErrorBody "Access denied")), after_handover).
Proof.
  apply (handover_locks_out_caller accept_all 7 1 reassigning_data 9
           two_guests
           (fst (run (update_guest accept_all 7 1 reassigning_data) two_guests))).
  - vm_compute. reflexivity.
  - vm_compute. reflexivity.
  - reflexivity.
  - discriminate.
  - reflexivity.
Defined.

(** X7. An update that leaves the guest with the caller can be repeated:
    sent a second time, the same body gets the same response and the table
    stays as the first update left it. *)
Theorem update_guest_idempotent validate identity guest_id data db r db' :
  run (update_guest validate identity guest_id data) db = (r, db') ->
  succeeded r = true ->
  data !! "inviter_id" = Some (JInt identity) ->
  run (update_guest validate identity guest_id data) db' = (r, db').
Proof.
  intros Hrun Hr Hcaller.
  apply update_guest_success in Hrun
    as (g0 & cd & ct & st & gt & inv & cm & d & Hg0 & _ & Hcd & Hct & Hst & Hgt
        & Hinv & Hcm & Hv & -> & Hd & ->); [|done].
  assert (inv = JInt identity) as -> by congruence.
  set (u := updated g0 gt (JInt identity) cd ct st cm) in *.
  assert (id u = Some guest_id) as Hid
    by (apply find_has_id in Hg0 as [<- _]; apply updated_frame).
  assert (find (has_id guest_id) (update_row guest_id (fun _ => u) db) = Some u)
    as Hfind by (apply find_update_row_const; [done | by eexists]).
  destruct (update_guest_run validate identity guest_id data _ u cd ct st gt
              (JInt identity) cm Hfind eq_refl Hv Hcd Hct Hst Hgt Hinv Hcm)
    as (d' & Hd' & ->).
  change (updated u gt (JInt identity) cd ct st cm) with u in *.
  assert (d' = d) as -> by congruence.
  rewrite update_row_const_twice by done.
  by rewrite commit_check_subset.
Qed.

Lemma update_guest_idempotent_witness :
  run (update_guest accept_all 7 1 owner_data) after_update =
  (fst (run (update_guest accept_all 7 1 owner_data) two_guests), after_update).
Proof.
  apply (update_guest_idempotent accept_all 7 1 owner_data two_guests).
  - vm_compute. reflexivity.
  - vm_compute. reflexivity.
  - reflexivity.
Defined.

(** ** Serialised guests read back *)

Lemma two_digits_digits (a b : Z) :
  0 <= a <= 9 -> 0 <= b <= 9 ->
  two_digits (ascii_of_digit a) (ascii_of_digit b) = Some (10 * a + b).
Proof.
  intros Ha Hb. unfold two_digits. by rewrite !digit_of_ascii_of_digit.
Qed.

Lemma ascii_of_digit_plain (x : Z) :
  0 <= x <= 9 ->
  Ascii.eqb (ascii_of_digit x) "-" = false /\
  Ascii.eqb (ascii_of_digit x) " " = false.
Proof.
  intros Hx.
  assert (x = 0 \/ x = 1 \/ x = 2 \/ x = 3 \/ x = 4 \/ x = 5 \/ x = 6 \/
          x = 7 \/ x = 8 \/ x = 9) as Hc by lia.
  repeat (destruct Hc as [-> | Hc]; [by split |]). by subst.
Qed.

Lemma ascii_of_digit_not_dash (x : Z) :
  0 <= x <= 9 -> Ascii.eqb (ascii_of_digit x) "-" = false.
Proof. intros Hx. by apply ascii_of_digit_plain. Qed.

Lemma ascii_of_digit_not_space (x : Z) :
  0 <= x <= 9 -> Ascii.eqb (ascii_of_digit x) " " = false.
Proof. intros Hx. by apply ascii_of_digit_plain. Qed.

Lemma split_on_date (a1 a2 a3 a4 b1 b2 c1 c2 : Z) :
  0 <= a1 <= 9 -> 0 <= a2 <= 9 -> 0 <= a3 <= 9 -> 0 <= a4 <= 9 ->
  0 <= b1 <= 9 -> 0 <= b2 <= 9 -> 0 <= c1 <= 9 -> 0 <= c2 <= 9 ->
  let ch := ascii_of_digit in
  split_on "-"
    (String (ch a1) (String (ch a2) (String (ch a3) (String (ch a4)
    (String "-" (String (ch b1) (String (ch b2)
    (String "-" (String (ch c1) (String (ch c2) EmptyString)))))))))) =
  [String (ch a1) (String (ch a2) (String (ch a3) (String (ch a4) EmptyString)));
   String (ch b1) (String (ch b2) EmptyString);
   String (ch c1) (String (ch c2) EmptyString)].
Proof.
  intros H1 H2 H3 H4 H5 H6 H7 H8 ch. subst ch. cbn [split_on].
  rewrite !ascii_of_digit_not_dash by done.
  reflexivity.
Qed.

(** The text [strftime] writes for a date reads back as the same date. *)
Lemma strptime_strftime_date (d : date) :
  valid_date d = true -> strptime_date (strftime_date d) = Return d.
Proof.
  intros Hv. pose proof (valid_date_bounds _ Hv) as (Hy & Hm & Hd).
  destruct d as [y m dd]; cbn [year month day] in *.
  assert (dd <= 31) by (unfold days_in_month in Hd; repeat case_match; lia).
  cbv [strptime_date strftime_date pad4 pad2 String.append year month day].
  rewrite split_on_date by (Z.div_mod_to_equations; lia).
  cbv [parse_year parse_month parse_day].
  rewrite !two_digits_digits by (Z.div_mod_to_equations; lia).
  rewrite ascii_of_digit_not_space by (Z.div_mod_to_equations; lia).
  replace (100 * (10 * (y / 1000 mod 10) + y / 100 mod 10) +
           (10 * (y / 10 mod 10) + y mod 10)) with y
    by (Z.div_mod_to_equations; lia).
  replace (10 * (m / 10 mod 10) + m mod 10) with m
    by (Z.div_mod_to_equations; lia).
  replace (10 * (dd / 10 mod 10) + dd mod 10) with dd
    by (Z.div_mod_to_equations; lia).
  destruct (Z.leb_spec 1 m); [|lia]. destruct (Z.leb_spec m 12); [|lia].
  destruct (Z.leb_spec 1 dd); [|lia]. destruct (Z.leb_spec dd 31); [|lia].
  cbn [andb]. by rewrite Hv.
Qed.

(** X8. What [to_dict] writes, the handlers read: for a guest whose
    arrival is a calendar date of the year 1000 or later and whose times are
    times of day to the whole second, the [coming_date], [coming_time] and
    [stay_time] of its dictionary parse, with the parsers of [create_guest]
    and [update_guest], to the values of the guest, and the other three
    fields are there as they are. *)
Theorem to_dict_reads_back (g : Guest) (d : gmap string json) (st : time) :
  to_dict g = Return d ->
  stay_time g = Some st ->
  1000 <= year (coming_date g) ->
  valid_date (coming_date g) = true ->
  valid_time (coming_time g) = true ->
  valid_time st = true ->
  rbind (getitem d "coming_date") strptime_json = Return (coming_date g) /\
  rbind (getitem d "coming_time") fromisoformat_json = Return (coming_time g) /\
  rbind (getitem d "stay_time") fromisoformat_json = Return st /\
  d !! "guest_type_id" = Some (guest_type_id g) /\
  d !! "inviter_id" = Some (inviter_id g) /\
  d !! "comment" = Some (comment g).
Proof.
  intros Hd Hst _ Hcd Hct Hvst.
  apply to_dict_inv in Hd as (st' & Hst' & H1 & H2 & H3 & H4 & H5 & H6).
  assert (st' = st) as -> by congruence.
  unfold getitem. rewrite H3, H4, H5. cbn.
  rewrite strptime_strftime_date, !fromisoformat_strftime by done.
  by split_and!.
Qed.

Lemma to_dict_reads_back_witness :
  rbind (getitem sample_guest_dict "coming_date") strptime_json
    = Return (coming_date sample_guest) /\
  rbind (getitem sample_guest_dict "coming_time") fromisoformat_json
    = Return (coming_time sample_guest) /\
  rbind (getitem sample_guest_dict "stay_time") fromisoformat_json
    = Return (mk_time 1 30 0) /\
  sample_guest_dict !! "guest_type_id" = Some (guest_type_id sample_guest) /\
  sample_guest_dict !! "inviter_id" = Some (inviter_id sample_guest) /\
  sample_guest_dict !! "comment" = Some (comment sample_guest).
Proof.
  apply (to_dict_reads_back sample_guest sample_guest_dict (mk_time 1 30 0)).
  - vm_compute. reflexivity.
  - reflexivity.
  - vm_compute. discriminate.
  - reflexivity.
  - reflexivity.
  - reflexivity.
Defined.

(** X9. Reading a guest and writing it back changes nothing one can read:
    for a guest whose arrival is a calendar date of the year 1000 or later
    and whose times are times of day to the whole second, when the owner
    sends the dictionary of [to_dict] as the body of an update (and the
    schema accepts it), the update answers 200 and the row keeps its key,
    guest type, inviter, arrival date and time and comment; the other rows
    keep their place. *)
Theorem get_then_put_keeps_guest
    validate identity guest_id db (g : Guest) (d : gmap string json) (st : time) :
  find (has_id guest_id) db = Some g ->
  inviter_id g = JInt identity ->
  to_dict g = Return d ->
  validate d (Some guest_id) = ∅ ->
  stay_time g = Some st ->
  1000 <= year (coming_date g) ->
  valid_date (coming_date g) = true ->
  valid_time (coming_time g) = true ->
  valid_time st = true ->
  guest_type_id g <> JNull ->
  exists d' db' g',
    run (update_guest validate identity guest_id d) db =
      (Return (mk_response 200 (GuestBody d')), db') /\
    find (has_id guest_id) db' = Some g' /\
    id g' = id g /\
    guest_type_id g' = guest_type_id g /\
    inviter_id g' = inviter_id g /\
    coming_date g' = coming_date g /\
    coming_time g' = coming_time g /\
    comment g' = comment g /\
    keys db' = keys db.
Proof.
  intros Hg Hown Hd Hv Hst _ Hcd Hct Hvst Hgt.
  destruct (to_dict_inv _ _ Hd) as (st' & Hst' & H1 & H2 & H3 & H4 & H5 & H6).
  assert (st' = st) as -> by congruence.
  assert (rbind (getitem d "coming_date") strptime_json = Return (coming_date g))
    as Pcd by (unfold getitem; rewrite H3; cbn; by apply strptime_strftime_date).
  assert (rbind (getitem d "coming_time") fromisoformat_json = Return (coming_time g))
    as Pct by (unfold getitem; rewrite H4; cbn; by apply fromisoformat_strftime).
  assert (rbind (getitem d "stay_time") fromisoformat_json = Return st)
    as Pst by (unfold getitem; rewrite H5; cbn; by apply fromisoformat_strftime).
  assert (inviter_id g <> JNull) as Hinv by (rewrite Hown; discriminate).
  destruct (update_guest_returns validate identity guest_id d db g _ _ _ _ _ _
              Hg Hown Hv Pcd Pct Pst H2 Hgt H1 Hinv H6) as (d' & _ & Hrun).
  eexists d', _, _. split; [exact Hrun|]. split_and!.
  - apply find_update_row_const; [|by eexists].
    pose proof (find_has_id _ _ _ Hg) as [Hid _]. exact Hid.
  - done.
  - done.
  - done.
  - done.
  - done.
  - done.
  - rewrite <- (update_row_found guest_id
       (fun g0 => updated g0 (guest_type_id g) (inviter_id g) (coming_date g)
                          (coming_time g) st (comment g)) db g Hg).
    by apply keys_update_row.
Qed.

Lemma get_then_put_keeps_guest_witness :
  exists d' db' g',
    run (update_guest accept_all 7 1 sample_guest_dict) two_guests =
      (Return (mk_response 200 (GuestBody d')), db') /\
    find (has_id 1) db' = Some g' /\
    id g' = id sample_guest /\
    guest_type_id g' = guest_type_id sample_guest /\
    inviter_id g' = inviter_id sample_guest /\
    coming_date g' = coming_date sample_guest /\
    coming_time g' = coming_time sample_guest /\
    comment g' = comment sample_guest /\
    keys db' = keys two_guests.
Proof.
  apply (get_then_put_keeps_guest accept_all 7 1 two_guests sample_guest
           sample_guest_dict (mk_time 1 30 0)).
  - reflexivity.
  - reflexivity.
  - vm_compute. reflexivity.
  - reflexivity.
  - reflexivity.
  - vm_compute. discriminate.
  - reflexivity.
  - reflexivity.
  - reflexivity.
  - discriminate.
Defined.

(** ** Bodies with a missing key *)

(** X10. The key [comment] has to be in the body: a create, or an update by
    the owner, whose body the schema accepts and which has everything but
    [comment], ends in [KeyError('comment')] (a 500 for the client), and
    the table stays as it was. *)
Theorem missing_comment_is_key_error
    validate identity (c : command) data db cd ct st gt inv :
  payload c = Some data ->
  reaches_body identity c db ->
  validate (match c with
            | Create _ => <["inviter_id" := JInt identity]> data
            | _ => data
            end) (target c) = ∅ ->
  rbind (getitem data "coming_date") strptime_json = Return cd ->
  rbind (getitem data "coming_time") fromisoformat_json = Return ct ->
  rbind (getitem data "stay_time") fromisoformat_json = Return st ->
  data !! "guest_type_id" = Some gt ->
  (target c <> None -> data !! "inviter_id" = Some inv) ->
  data !! "comment" = None ->
  run (handle validate identity c) db = (Raise (KeyError "comment"), db) /\
  http_status (Raise (KeyError "comment")) = 500.
Proof.
  intros Hp Hready Hv Hcd Hct Hst Hgt Hinv Hcm. split; [|done].
  destruct c as [data0 | k data0 | k]; simplify_eq/=.
  - unfold run, create_guest. rewrite Hv, bool_decide_eq_true_2 by done.
    cbn [negb]. unfold getitem in *.
    rewrite !(lookup_insert_ne _ "inviter_id") by done.
    rewrite lookup_insert_eq, Hgt.
    unfold bind at 1. unfold lift at 1. rewrite Hcd.
    unfold bind at 1. unfold lift at 1. rewrite Hct.
    unfold bind at 1. unfold lift at 1. rewrite Hst.
    unfold bind at 1. unfold lift at 1. cbn [of_option].
    unfold bind at 1. unfold lift at 1. cbn [of_option].
    unfold bind at 1. unfold lift at 1.
    rewrite lookup_insert_ne, Hcm by done. reflexivity.
  - destruct Hready as (g & Hg & Hown).
    specialize (Hinv ltac:(done)).
    unfold run, update_guest.
    unfold bind at 1. unfold session_get. cbn [pending]. rewrite Hg.
    rewrite Hown, Hv, !bool_decide_eq_true_2 by done. cbn [negb].
    unfold bind at 1. unfold lift at 1. rewrite Hcd.
    unfold bind at 1. unfold lift at 1. rewrite Hct.
    unfold bind at 1. unfold lift at 1. rewrite Hst.
    unfold getitem. rewrite Hgt, Hinv, Hcm. reflexivity.
Qed.

Lemma missing_comment_is_key_error_witness :
  run (handle accept_all 7 (Update 1 no_comment_data)) two_guests
    = (Raise (KeyError "comment"), two_guests) /\
  http_status (Raise (KeyError "comment")) = 500.
Proof.
  apply (missing_comment_is_key_error accept_all 7 (Update 1 no_comment_data)
           no_comment_data two_guests (mk_date 2024 3 10) (mk_time 23 0 0)
           (mk_time 2 30 0) (JInt 1) (JInt 7)).
  - reflexivity.
  - exists sample_guest. by split.
  - reflexivity.
  - vm_compute. reflexivity.
  - vm_compute. reflexivity.
  - vm_compute. reflexivity.
  - vm_compute. reflexivity.
  - intros _. vm_compute. reflexivity.
  - vm_compute. reflexivity.
Defined.

(** ** Listing: what is on a page *)

Lemma no_write_run {A} (m : M A) (db : list Guest) :
  no_write m -> snd (run m db) = db.
Proof.
  intros Hm. unfold run. destruct (m _) as [r s] eqn:H.
  by apply Hm in H.
Qed.

Lemma no_write_get_guests args : no_write (get_guests args).
Proof. unfold get_guests. auto 10 with nowrite. Qed.

Lemma no_write_get_guest k : no_write (get_guest k).
Proof.
  unfold get_guest. apply no_write_bind; [auto with nowrite|].
  intros [g|]; auto with nowrite.
Qed.

(** X11. Reading never writes: whatever [get_guests] or [get_guest]
    answers, a success, a 404 or an exception, the table is left as it
    was. *)
Theorem reads_leave_table_unchanged (args : query_args) (guest_id : Z) db :
  snd (run (get_guests args) db) = db /\
  snd (run (get_guest guest_id) db) = db.
Proof.
  split; apply no_write_run; [apply no_write_get_guests | apply no_write_get_guest].
Qed.

Lemma rmap_Forall2 {A B} (f : A -> result B) (l : list A) (out : list B) :
  rmap f l = Return out -> Forall2 (fun a b => f a = Return b) l out.
Proof.
  revert out. induction l as [|a l IH]; intros out; cbn.
  - intros [= <-]. constructor.
  - destruct (f a) as [b|] eqn:Hb; [|discriminate]. cbn.
    destruct (rmap f l) as [bs|]; [|discriminate]. cbn.
    intros [= <-]. constructor; auto.
Qed.

Lemma rmap_to_dict_total (l : list Guest) :
  (forall g, g ∈ l -> is_Some (stay_time g)) ->
  exists out, rmap to_dict l = Return out.
Proof.
  induction l as [|g l IH]; intros Hl; cbn; [by eexists|].
  destruct (Hl g ltac:(left)) as [st Hst].
  destruct IH as [out Hout]; [intros g' Hg'; apply Hl; by right|].
  unfold to_dict at 1. rewrite Hst. cbn. rewrite Hout. cbn. by eexists.
Qed.

Lemma elem_of_execute (select : list clause) (rows : list Guest) (g : Guest) :
  g ∈ execute select rows <-> g ∈ rows /\ matches select g = true.
Proof. unfold execute. by rewrite !list_elem_of_In, filter_In. Qed.

Lemma matches_holds (select : list clause) (c : clause) (g : Guest) :
  matches select g = true -> c ∈ select -> holds c g = true.
Proof.
  unfold matches. rewrite forallb_forall. intros H Hc%list_elem_of_In. auto.
Qed.

Lemma page_items_subseteq (rows : list Guest) (page per_page : Z) :
  page_items rows page per_page ⊆ rows.
Proof.
  unfold page_items. etrans; [apply subseteq_take | apply subseteq_drop].
Qed.

Lemma select_guests_filters (args : query_args) (select : list clause) :
  select_guests args = Return select ->
  (forall v, arg_inviter_id args = Some v -> v <> 0 -> InviterIs v ∈ select) /\
  (forall v, arg_guest_type_id args = Some v -> v <> 0 -> GuestTypeIs v ∈ select).
Proof.
  unfold select_guests. intros Hsel.
  split; intros v Hv Hne; rewrite Hv in Hsel; cbn [truthy_int default] in Hsel;
    (destruct (Z.eqb_spec v 0) as [|_]; [done|]); cbn [negb] in Hsel.
  - destruct (truthy_int (arg_guest_type_id args)), (truthy_str (arg_start_date args)),
      (strptime_opt (arg_start_date args)), (strptime_opt (arg_end_date args));
      cbn in Hsel; try discriminate Hsel; injection Hsel as <-;
      apply list_elem_of_here.
  - destruct (truthy_int (arg_inviter_id args)), (truthy_str (arg_start_date args)),
      (strptime_opt (arg_start_date args)), (strptime_opt (arg_end_date args));
      cbn in Hsel; try discriminate Hsel; injection Hsel as <-;
      repeat first [apply list_elem_of_here | apply list_elem_of_further].
Qed.

(** X12. A listing shows what was asked for and no more than asked for: in
    every listing that succeeds there are at most [per_page] guests, none
    more than [total_guests], and with an [inviter_id] (or a
    [guest_type_id]) other than 0 in the query every guest listed has that
    inviter (that guest type). *)
Theorem listing_respects_query args db r db' :
  run (get_guests args) db = (r, db') ->
  succeeded r = true ->
  exists guests total_guests prev_page next_page,
    r = Return (mk_response 200
          (PageBody guests total_guests prev_page next_page)) /\
    Z.of_nat (length guests) <= default 10 (arg_per_page args) /\
    Z.of_nat (length guests) <= total_guests /\
    (forall v d, arg_inviter_id args = Some v -> v <> 0 -> d ∈ guests ->
                 d !! "inviter_id" = Some (JInt v)) /\
    (forall v d, arg_guest_type_id args = Some v -> v <> 0 -> d ∈ guests ->
                 d !! "guest_type_id" = Some (JInt v)).
Proof.
  intros Hrun Hr.
  apply get_guests_success in Hrun
    as (select & p & output & Hsel & Hp & Hout & -> & ->); [|done].
  apply paginate_inv in Hp as (Hpage & Hper & _ & _ & Eitems & Etot & _).
  cbn [pending] in Eitems, Etot.
  apply rmap_Forall2 in Hout as Hall.
  apply select_guests_filters in Hsel as [Hinv Hgt].
  assert (length output = length (items p)) as Hlen
    by (symmetry; by eapply Forall2_length).
  assert (forall d, d ∈ output ->
            exists g, g ∈ db /\ matches select g = true /\ to_dict g = Return d)
    as Hrows.
  { intros d Hd. apply list_elem_of_lookup in Hd as [i Hi].
    destruct (Forall2_lookup_r _ _ _ _ _ Hall Hi) as (g & Hg & Hgd).
    apply list_elem_of_lookup_2 in Hg. rewrite Eitems in Hg.
    apply page_items_subseteq, elem_of_execute in Hg as [? ?]. eauto. }
  eexists _, _, _, _. split; [reflexivity|]. split_and!.
  - rewrite Hlen, Eitems. unfold page_items. rewrite length_take. lia.
  - rewrite Hlen, Eitems, Etot. unfold page_items.
    rewrite length_take, length_drop. lia.
  - intros v d Hv Hne (g & _ & Hm & Hd)%Hrows.
    pose proof (matches_holds _ _ _ Hm (Hinv v Hv Hne)) as Hh.
    apply bool_decide_eq_true in Hh.
    apply to_dict_inv in Hd as (_ & _ & -> & _). by rewrite Hh.
  - intros v d Hv Hne (g & _ & Hm & Hd)%Hrows.
    pose proof (matches_holds _ _ _ Hm (Hgt v Hv Hne)) as Hh.
    apply bool_decide_eq_true in Hh.
    apply to_dict_inv in Hd as (_ & _ & _ & -> & _). by rewrite Hh.
Qed.

Lemma listing_respects_query_witness :
  exists guests total_guests prev_page next_page,
    fst (run (get_guests inviter_seven) two_guests) = Return (mk_response 200
          (PageBody guests total_guests prev_page next_page)) /\
    Z.of_nat (length guests) <= default 10 (arg_per_page inviter_seven) /\
    Z.of_nat (length guests) <= total_guests /\
    (forall v d, arg_inviter_id inviter_seven = Some v -> v <> 0 -> d ∈ guests ->
                 d !! "inviter_id" = Some (JInt v)) /\
    (forall v d, arg_guest_type_id inviter_seven = Some v -> v <> 0 -> d ∈ guests ->
                 d !! "guest_type_id" = Some (JInt v)).
Proof.
  apply (listing_respects_query inviter_seven two_guests
           (fst (run (get_guests inviter_seven) two_guests))
           (snd (run (get_guests inviter_seven) two_guests))).
  - vm_compute. reflexivity.
  - vm_compute. reflexivity.
Defined.

(** ** Listing: which pages there are *)

Lemma page_items_empty (rows : list Guest) (page per_page : Z) :
  1 <= page -> 1 <= per_page ->
  page_items rows page per_page = [] <->
  Z.of_nat (length rows) <= (page - 1) * per_page.
Proof.
  intros Hpage Hper. split.
  - intros Hnil. apply Z.nlt_ge. intros Hlt.
    apply (f_equal length) in Hnil. unfold page_items in Hnil.
    rewrite length_take, length_drop in Hnil. cbn [length] in Hnil.
    assert (0 <= (page - 1) * per_page) by nia.
    set (n := (page - 1) * per_page) in *. lia.
  - intros Hle. unfold page_items.
    set (n := (page - 1) * per_page) in *.
    rewrite drop_ge; [by rewrite take_nil | lia].
Qed.

Lemma beyond_last_page (page per_page total : Z) :
  1 <= page -> 1 <= per_page -> 0 <= total ->
  page <= last_page total per_page <-> page = 1 \/ (page - 1) * per_page < total.
Proof.
  intros Hpage Hper Htot. unfold last_page.
  pose proof (Z.div_mod (total + per_page - 1) per_page) as Hdm.
  pose proof (Z.mod_pos_bound (total + per_page - 1) per_page) as Hmod.
  set (c := (total + per_page - 1) / per_page) in *.
  set (m := (total + per_page - 1) mod per_page) in *.
  specialize (Hdm ltac:(lia)). specialize (Hmod ltac:(lia)).
  split; [intros H | intros [-> | H]]; nia.
Qed.





(** X15. A [start_date] of ASCII characters that is there and is not a
    calendar date in the form [%Y-%m-%d] ends the listing in a
    [ValueError], a 500 for the client, before the table is looked at:
    whatever the page, the other filters and the rows. *)
Theorem bad_start_date_is_value_error args db s e :
  arg_start_date args = Some s ->
  s <> EmptyString ->
  is_ascii s = true ->
  strptime_date s = Raise e ->
  run (get_guests args) db = (Raise ValueError, db) /\
  http_status (Raise ValueError) = 500.
Proof.
  intros Hs Hne _ He. split; [|done].
  apply strptime_date_raises in He as Hv. subst e.
  unfold run, get_guests, bind, lift, select_guests. rewrite Hs.
  cbn [truthy_str strptime_opt]. rewrite bool_decide_eq_false_2 by done.
  cbn [negb]. by rewrite He.
Qed.

Lemma bad_start_date_is_value_error_witness :
  run (get_guests bad_start_date) two_guests = (Raise ValueError, two_guests) /\
  http_status (Raise ValueError) = 500.
Proof.
  apply (bad_start_date_is_value_error bad_start_date two_guests
           "2024-02-30" ValueError).
  - reflexivity.
  - discriminate.
  - reflexivity.
  - reflexivity.
Defined.

(** ** After a delete *)

(** X16. A delete cannot be repeated: once a guest of a table with a proper
    key is deleted, every update or delete aimed at its key, by whomever
    and with whatever body, is answered 404 [Guest not found] and changes
    nothing. *)
Theorem deleted_guest_is_not_found
    validate identity guest_id db r db' caller (c : command) :
  run (delete_guest identity guest_id) db = (r, db') ->
  succeeded r = true ->
  primary_key db ->
  target c = Some guest_id ->
  run (handle validate caller c) db' =
  (Return (mk_response 404 (ErrorBody "Guest not found")), db').
Proof.
  intros Hrun Hr Hpk Ht.
  apply delete_guest_success in Hrun as (g0 & _ & _ & -> & _); [|done].
  assert (find (has_id guest_id) (delete_row guest_id db) = None) as Hgone
    by (rewrite find_delete_row by done; by rewrite bool_decide_eq_true_2).
  destruct c as [data1 | k data1 | k]; cbn [target] in Ht;
    try discriminate Ht; injection Ht as ->;
    unfold run, handle, update_guest, delete_guest, bind, session_get;
    cbn [pending]; by rewrite Hgone.
Qed.

Lemma deleted_guest_is_not_found_witness :
  run (handle accept_all 7 (Delete 1)) (snd (run (delete_guest 7 1) two_guests)) =
  (Return (mk_response 404 (ErrorBody "Guest not found")),
   snd (run (delete_guest 7 1) two_guests)).
Proof.
  apply (deleted_guest_is_not_found accept_all 7 1 two_guests
           (fst (run (delete_guest 7 1) two_guests))).
  - vm_compute. reflexivity.
  - vm_compute. reflexivity.
  - unfold primary_key, keys, two_guests. cbn.
    apply NoDup_cons. split; [|apply NoDup_singleton].
    intros Hx%list_elem_of_singleton. discriminate Hx.
  - reflexivity.
Defined.

(** ** Users and guest types *)

(** X17. [User.to_dict] shows the key, the name and the address of a user
    and nothing of the password: the dictionary has no [password], and two
    users have the same dictionary exactly when they agree on [id],
    [username] and [email], whatever their passwords. *)
Theorem user_to_dict_hides_password (u v : User.t) :
  User.to_dict u !! "password" = None /\
  (User.to_dict u = User.to_dict v <->
   User.id u = User.id v /\ User.username u = User.username v /\
   User.email u = User.email v).
Proof.
  split; [done|]. split.
  - intros Heq.
    pose proof (f_equal (fun m => m !! "id") Heq) as Hid.
    pose proof (f_equal (fun m => m !! "username") Heq) as Hname.
    pose proof (f_equal (fun m => m !! "email") Heq) as Hmail.
    unfold User.to_dict in Hid, Hname, Hmail. cbv beta in Hid, Hname, Hmail.
    rewrite !lookup_insert_eq in Hid.
    rewrite !(lookup_insert_ne _ "id"), !lookup_insert_eq in Hname by done.
    rewrite !(lookup_insert_ne _ "id"), !(lookup_insert_ne _ "username"),
      !lookup_insert_eq in Hmail by done.
    by simplify_eq.
  - intros (Hid & Hname & Hmail). unfold User.to_dict.
    by rewrite Hid, Hname, Hmail.
Qed.

(** X18. [GuestType.to_dict] loses nothing: two guest types with the same
    dictionary are the same guest type. *)
Theorem guest_type_to_dict_injective (a b : GuestType.t) :
  GuestType.to_dict a = GuestType.to_dict b -> a = b.
Proof.
  intros Heq.
  pose proof (f_equal (fun m => m !! "id") Heq) as Hid.
  pose proof (f_equal (fun m => m !! "name") Heq) as Hname.
  unfold GuestType.to_dict in Hid, Hname. cbv beta in Hid, Hname.
  rewrite !lookup_insert_eq in Hid.
  rewrite !(lookup_insert_ne _ "id"), !lookup_insert_eq in Hname by done.
  destruct a, b. cbn in *. by simplify_eq.
Qed.

Lemma guest_type_to_dict_injective_witness :
  sample_guest_type = GuestType.mk 1 "friend".
Proof.
  apply (guest_type_to_dict_injective sample_guest_type (GuestType.mk 1 "friend")).
  reflexivity.
Defined.

Example user_to_dict_ex :
  User.to_dict sample_user =
  <["id" := JInt 7]> (<["username" := JStr "izyan"]>
    (<["email" := JStr "izyan@example.org"]> ∅)).
Proof. reflexivity. Qed.
